(** * points_to_h3: aggregation of scored points to H3 hexagons

    A shallow embedding of [src/points_to_h3.py].  The script is one
    command, [main], that loads a point layer with GeoPandas, drops the
    points without a score, converts the score column to numbers when the
    column is not numeric, assigns every point to an H3 cell, averages the
    score per cell, turns every cell into its hexagon and writes the
    hexagons out.

    GeoPandas, pandas, h3pandas and the file system are outside the
    script.  Their operations are modelled here as far as the script uses
    them, after pandas 2; the H3 index itself, the parser of numeric
    text, NumPy's cast of a float to a time and the driver that writes
    the output are taken as parameters of the development.

    Scores are integers and binary64 floating-point numbers, as pandas
    holds them, and the mean is computed the way pandas computes it.
    Coordinates, which the script only hands on to the H3 index, are
    idealised as exact rationals. *)

From Stdlib Require Import Floats.
From Stdlib Require Import List String Ascii ZArith QArith Qround Bool Lia.
From Stdlib Require Import Sorted OrdersEx RelationClasses.
From Stdlib Require Import DecimalString.
Import ListNotations.

Local Open Scope string_scope.
Local Open Scope list_scope.
Local Open Scope Z_scope.

Set Implicit Arguments.

(** ** Binary64 *)

(** The float nearest to an integer, ties to even: the cast of an
    [int64] to a [float64]. *)
Definition float_of_Z (z : Z) : float :=
  SF2Prim (binary_normalize prec emax z 0 false).

(** The rational number a finite float stands for. *)
Definition rational (x : float) : option Q :=
  match Prim2SF x with
  | S754_zero _ => Some 0%Q
  | S754_finite s m e =>
      let n := if s then Z.neg m else Z.pos m in
      Some (if 0 <=? e then inject_Z (n * 2 ^ e)
            else (n # Z.to_pos (2 ^ (- e)))%Q)
  | S754_infinity _ | S754_nan => None
  end.

(** The integer part of a finite float. *)
Definition truncate (x : float) : option Z :=
  match Prim2SF x with
  | S754_zero _ => Some 0
  | S754_finite s m e =>
      let a := Z.shiftl (Z.pos m) e in Some (if s then - a else a)
  | S754_infinity _ | S754_nan => None
  end.

(** ** Geometries and cell values *)

Definition coord := (Q * Q)%type.

(** The shapely geometries a vector file can hold; [x] is the longitude
    and [y] the latitude of a point. *)
Inductive shape :=
| Point (x y : Q)
| MultiPoint (pts : list coord)
| LineString (pts : list coord)
| Polygon (ring : list coord).

(** [GeoSeries.type] of one geometry. *)
Definition geom_type (g : shape) : string :=
  match g with
  | Point _ _ => "Point"
  | MultiPoint _ => "MultiPoint"
  | LineString _ => "LineString"
  | Polygon _ => "Polygon"
  end.

(** What one cell of a column can hold: a missing value ([None] or
    [NaT]), an integer, a float ([NaN] and the infinities included), a
    piece of text, a time in nanoseconds since the epoch or, in the
    geometry column, a shape. *)
Inductive value :=
| NA
| Integer (n : Z)
| Float (x : float)
| Str (s : string)
| Timestamp (ns : Z)
| Geom (g : shape).

(** The dtypes of the columns of a frame.  [Numeric] stands for NumPy's
    [int64] and [float64], which the script never tells apart: a
    numeric column holds integers or floats.  [Object] is NumPy's
    object dtype, under which pandas keeps text by default;
    [StringDtype] is an instance of pandas' own string extension dtype;
    [Datetime64] is the dtype of dates and times; [GeometryDtype] is
    GeoPandas' dtype of the geometry column. *)
Inductive dtype :=
| Numeric
| Object
| StringDtype
| Datetime64
| GeometryDtype.

(** [pd.isna] of one value: [None], [NaT] and [NaN]. *)
Definition isna_value (v : value) : bool :=
  match v with
  | NA => true
  | Float x => is_nan x
  | _ => false
  end.

Definition is_number (v : value) : bool :=
  match v with
  | Integer _ => true
  | Float x => negb (is_nan x)
  | _ => false
  end.

(** ** Series and frames *)

Record Series := { dtype_of : dtype; values : list value }.

(** One row of a frame: its geometry (absent for a feature without
    one) and its attribute values by field name. *)
Record Feature := {
  geometry : option shape;
  properties : list (string * value)
}.

(** A GeoDataFrame: the attribute columns with their dtypes, in order,
    and the rows.  The geometry column is always present and is the
    last one. *)
Record GeoDataFrame := {
  dtypes : list (string * dtype);
  features : list Feature
}.

(** What [gpd.read_file] hands back: a GeoDataFrame for a layer, and a
    plain pandas DataFrame for a table without geometries.  The rows
    of a table are rows without a geometry; a plain frame has no
    geometry column. *)
Inductive frame :=
| Plain (df : GeoDataFrame)
| Geo (gdf : GeoDataFrame).

Fixpoint assoc {A : Type} (k : string) (l : list (string * A)) : option A :=
  match l with
  | [] => None
  | (k', a) :: l' => if String.eqb k k' then Some a else assoc k l'
  end.

(** Replaces the binding of [k], or adds one at the end. *)
Fixpoint assign {A : Type} (k : string) (a : A) (l : list (string * A))
  : list (string * A) :=
  match l with
  | [] => [(k, a)]
  | (k', a') :: l' =>
      if String.eqb k k' then (k, a) :: l' else (k', a') :: assign k a l'
  end.

Definition mem (k : string) (l : list string) : bool :=
  existsb (String.eqb k) l.

(** [gdf.columns] *)
Definition columns (gdf : GeoDataFrame) : list string :=
  map fst (dtypes gdf) ++ ["geometry"].

(** [frame.columns] of what was read. *)
Definition frame_columns (fr : frame) : list string :=
  match fr with
  | Plain df => map fst (dtypes df)
  | Geo gdf => columns gdf
  end.

(** The rows of what was read. *)
Definition data (fr : frame) : GeoDataFrame :=
  match fr with
  | Plain df => df
  | Geo gdf => gdf
  end.

(** The value of row [f] in column [name]; a feature that lacks the
    attribute holds a missing value there. *)
Definition cell (name : string) (f : Feature) : value :=
  if String.eqb name "geometry" then
    match geometry f with Some g => Geom g | None => NA end
  else
    match assoc name (properties f) with Some v => v | None => NA end.

Definition column_dtype (name : string) (gdf : GeoDataFrame) : dtype :=
  if String.eqb name "geometry" then GeometryDtype
  else match assoc name (dtypes gdf) with Some d => d | None => Object end.

(** ** Errors

    The script raises plain [Exception]s and [ValueError]s told apart
    by their message; the constructors carry the names the
    specification gives them.  The remaining ones are the errors of the
    libraries. *)
Inductive exn :=
| InputNotFound                  (* "Input file could not be found" *)
| UnreadableGeometry             (* whatever [gpd.read_file] raised *)
| AttributeError                 (* [.geometry] of a plain DataFrame *)
| NoPointGeometry                (* "Expected point data ... but none found" *)
| MissingScoreField              (* "Specified score field not found ..." *)
| ScoreCoercionError (context : exn)
                                 (* "Could not convert score field ..." *)
| KeyError (name : string)       (* a column that is not in the frame *)
| ToNumericError                 (* [pd.to_numeric] on a value it cannot parse *)
| CellAssignError                (* h3pandas on a row it cannot index *)
| AggregationError               (* the mean of a column that has none *)
| BoundaryError                  (* h3pandas on a cell it cannot outline *)
| WriteError.                    (* whatever [to_file] raised *)

Inductive result (A : Type) :=
| Ok (a : A)
| Err (e : exn).
Arguments Err {A} e.

(** [frame.geometry]: a plain DataFrame has no such attribute. *)
Definition geometry_of (fr : frame) : result GeoDataFrame :=
  match fr with
  | Plain _ => Err AttributeError
  | Geo gdf => Ok gdf
  end.

(** [gdf[name]] *)
Definition getitem (gdf : GeoDataFrame) (name : string) : result Series :=
  if mem name (columns gdf) then
    Ok {| dtype_of := column_dtype name gdf;
          values := map (cell name) (features gdf) |}
  else Err (KeyError name).

(** [series.isna()] *)
Definition isna (s : Series) : list bool := map isna_value (values s).

(** [~mask] *)
Definition invert (mask : list bool) : list bool := map negb mask.

(** Selection of the rows a boolean mask marks. *)
Fixpoint select {A : Type} (mask : list bool) (rows : list A) : list A :=
  match mask, rows with
  | b :: mask', r :: rows' =>
      if b then r :: select mask' rows' else select mask' rows'
  | _, _ => []
  end.

(** [gdf[mask]] *)
Definition getitem_mask (gdf : GeoDataFrame) (mask : list bool) : GeoDataFrame :=
  {| dtypes := dtypes gdf; features := select mask (features gdf) |}.

(** Writing one value into a row. *)
Definition set_cell (name : string) (v : value) (f : Feature) : Feature :=
  if String.eqb name "geometry" then
    {| geometry := match v with Geom g => Some g | _ => None end;
       properties := properties f |}
  else
    {| geometry := geometry f; properties := assign name v (properties f) |}.

Fixpoint set_cells (name : string) (vs : list value) (fs : list Feature)
  : list Feature :=
  match vs, fs with
  | v :: vs', f :: fs' => set_cell name v f :: set_cells name vs' fs'
  | _, _ => fs
  end.

(** [gdf[name] = series] *)
Definition setitem (gdf : GeoDataFrame) (name : string) (s : Series)
  : GeoDataFrame :=
  {| dtypes := if String.eqb name "geometry" then dtypes gdf
               else assign name (dtype_of s) (dtypes gdf);
     features := set_cells name (values s) (features gdf) |}.

Definition type_eqb (a b : option string) : bool :=
  match a, b with
  | Some x, Some y => String.eqb x y
  | None, None => true
  | _, _ => false
  end.

(** [series.unique()]: the distinct values in order of first appearance. *)
Fixpoint unique (l : list (option string)) : list (option string) :=
  match l with
  | [] => []
  | x :: l' => x :: filter (fun y => negb (type_eqb x y)) (unique l')
  end.

(** [gdf.geometry.type]: the type name of every row's geometry, [None]
    for a row without one. *)
Definition geometry_type (gdf : GeoDataFrame) : list (option string) :=
  map (fun f => option_map geom_type (geometry f)) (features gdf).

(** ["Point" in gdf.geometry.type.unique()] *)
Definition has_point (gdf : GeoDataFrame) : bool :=
  existsb (type_eqb (Some "Point")) (unique (geometry_type gdf)).

(** ** The world: files and the calls made to the libraries *)

(** What a path holds: something GeoPandas cannot parse, a table
    without geometries, or a layer. *)
Inductive file :=
| Unparseable
| Table (df : GeoDataFrame)
| Dataset (gdf : GeoDataFrame).

Definition fsys := string -> option file.

(** The library calls of one run, in the order they are made. *)
Inductive call :=
| ReadFile (path : string)
| ToNumeric
| GeoToH3 (resolution : Z)
| GroupbyMean
| H3ToGeoBoundary
| ToFile (path : string) (gdf : GeoDataFrame).

Record world := { files : fsys; calls : list call }.

(** The files after a layer has been written to a path.  The file
    system of the model has one entry for a data set, under the path
    GeoPandas opens it by.  Some formats keep a data set in several
    files (a Shapefile has its [.dbf], [.shx] and [.prj] beside the
    [.shp]); these companions have no entries of their own. *)
Definition write (path : string) (gdf : GeoDataFrame) (fs : fsys) : fsys :=
  fun p => if String.eqb p path then Some (Dataset gdf) else fs p.

(** ** A state and exception monad for the script *)

Definition M (A : Type) : Type := world -> result A * world.

Definition ret {A : Type} (a : A) : M A := fun w => (Ok a, w).

Definition bind {A B : Type} (m : M A) (k : A -> M B) : M B :=
  fun w =>
    match m w with
    | (Ok a, w') => k a w'
    | (Err e, w') => (Err e, w')
    end.

Definition raise {A : Type} (e : exn) : M A := fun w => (Err e, w).

(** [try: m  except Exception as e: h e] *)
Definition try_except {A : Type} (m : M A) (h : exn -> M A) : M A :=
  fun w =>
    match m w with
    | (Ok a, w') => (Ok a, w')
    | (Err e, w') => h e w'
    end.

Definition lift {A : Type} (r : result A) : M A := fun w => (r, w).

Definition log (c : call) : M unit :=
  fun w => (Ok tt, {| files := files w; calls := calls w ++ [c] |}).

Declare Scope script_scope.
Delimit Scope script_scope with script.
Notation "x <- m ;; k" := (bind m (fun x => k))
  (at level 100, m at next level, right associativity) : script_scope.
Notation "m ;; k" := (bind m (fun _ => k))
  (at level 100, right associativity) : script_scope.
Local Open Scope script_scope.

Fixpoint traverse {A B : Type} (f : A -> option B) (l : list A)
  : option (list B) :=
  match l with
  | [] => Some []
  | a :: l' =>
      match f a, traverse f l' with
      | Some b, Some bs => Some (b :: bs)
      | _, _ => None
      end
  end.

(** ** The mean per group

    pandas' [group_mean]: one pass over the rows that keeps, for every
    group, the running sum of the observations, the compensation of
    the compensated (Kahan) summation and the number of observations;
    then one division per group.  All of it in binary64. *)

Record tally := { sumx : float; compensation : float; nobs : nat }.

Definition empty_tally : tally :=
  {| sumx := 0%float; compensation := 0%float; nobs := O |}.

(** One observation more.  A missing score is skipped.  When an
    infinite value has turned the compensation into [NaN], the
    compensation starts again at zero. *)
Definition observe (x : option float) (t : tally) : tally :=
  match x with
  | Some val =>
      let y := (val - compensation t)%float in
      let s := (sumx t + y)%float in
      let c := (s - sumx t - y)%float in
      {| sumx := s;
         compensation := if is_nan c then 0%float else c;
         nobs := S (nobs t) |}
  | None => t
  end.

(** Adds one observation to the group of key [k], keeping the groups
    in the order of their keys. *)
Fixpoint upsert (k : string) (x : option float) (gs : list (string * tally))
  : list (string * tally) :=
  match gs with
  | [] => [(k, observe x empty_tally)]
  | (k', t) :: gs' =>
      match String_as_OT.compare k k' with
      | Eq => (k', observe x t) :: gs'
      | Lt => (k, observe x empty_tally) :: (k', t) :: gs'
      | Gt => (k', t) :: upsert k x gs'
      end
  end.

Definition tallies (rows : list (string * option float))
  : list (string * tally) :=
  fold_left (fun gs r => upsert (fst r) (snd r) gs) rows [].

(** The mean of a group: the sum divided by the number of
    observations, and none when nothing was observed. *)
Definition mean_of (t : tally) : option float :=
  match nobs t with
  | O => None
  | S _ => Some (sumx t / float_of_Z (Z.of_nat (nobs t)))%float
  end.

(** One pass over the rows, then one mean per group, groups in key order. *)
Definition group_mean (rows : list (string * option float))
  : list (string * option float) :=
  map (fun g => (fst g, mean_of (snd g))) (tallies rows).

(** A cell of a numeric column as the [float64] the mean is taken of:
    an integer is cast, a missing value or [NaN] is no observation. *)
Definition as_float (v : value) : option (option float) :=
  match v with
  | NA => Some None
  | Integer n => Some (Some (float_of_Z n))
  | Float x => Some (if is_nan x then None else Some x)
  | _ => None
  end.

(** [NaT] as the [int64] that holds it. *)
Definition NaT : Z := - 2 ^ 63.

(** A cell of a column of times as the [float64] the mean is taken of:
    the nanoseconds are cast, and what comes out equal to [NaT] is no
    observation. *)
Definition as_datetime (v : value) : option (option float) :=
  match v with
  | NA => Some None
  | Timestamp ns =>
      let x := float_of_Z ns in
      Some (if (x =? float_of_Z NaT)%float then None else Some x)
  | _ => None
  end.

(** The values of a column of numbers or of times as the observations
    of the mean.  pandas has no such pass for text and for
    geometries. *)
Definition observations (d : dtype) (vs : list value)
  : option (list (option float)) :=
  match d with
  | Numeric => traverse as_float vs
  | Datetime64 => traverse as_datetime vs
  | Object | StringDtype | GeometryDtype => None
  end.

(** Whether a grouped frame has a group: a row with a key. *)
Definition has_group (keys : list value) : bool :=
  existsb (fun k => match k with Str _ => true | _ => false end) keys.

(** The rows of a grouped frame: key and score.  Rows without a key are
    left out (pandas' [dropna]); the key column h3pandas makes holds
    text only. *)
Fixpoint keyed (keys : list value) (xs : list (option float))
  : list (string * option float) :=
  match keys, xs with
  | Str k :: keys', x :: xs' => (k, x) :: keyed keys' xs'
  | _ :: keys', _ :: xs' => keyed keys' xs'
  | _, _ => []
  end.

(** [f"{n:02}"] *)
Definition format_02 (n : Z) : string :=
  let s := NilZero.string_of_int (Z.to_int n) in
  if (String.length s <? 2)%nat then "0" ++ s else s.

(** [dtype == pd.StringDtype]: the dtype of the column compared with
    the class [pd.StringDtype] itself, not with an instance of it.
    Python asks the left operand, the dtype, first.
    - A NumPy dtype turns the other operand into a dtype before it
      compares, as [np.dtype(other)] does, and [np.dtype] of a class
      NumPy does not know is the object dtype.  So the object dtype is
      equal to the class, and a numeric dtype or a dtype of times is
      not.
    - A pandas extension dtype, [StringDtype] and the geometry dtype
      included, is equal to a name of it and to an instance of its own
      class; the class is neither. *)
Definition eq_StringDtype_class (d : dtype) : bool :=
  match d with
  | Object => true
  | Numeric | StringDtype | Datetime64 | GeometryDtype => false
  end.

Definition drop_key {A : Type} (k : string) (l : list (string * A))
  : list (string * A) :=
  filter (fun p => negb (String.eqb k (fst p))) l.

(** The frame of the means, indexed by the group key: the dtype of the
    index, the dtype of the means and the rows. *)
Record Means := {
  index_dtype : dtype;
  mean_dtype : dtype;
  records : list (string * value)
}.

(** The dtype pandas gives a new column made of a list of cells: text
    is kept as objects, and a column of nothing is [float64]. *)
Definition cells_dtype (cs : list string) : dtype :=
  match cs with
  | [] => Numeric
  | _ :: _ => Object
  end.

(** ** The script *)

(** What the script takes from its libraries without the development
    looking inside. *)
Class Libraries := {
  (** [h3.geo_to_h3(lat, lng, resolution)]: the cell of a point, or a
      failure (a resolution outside 0..15, coordinates out of range). *)
  h3_geo_to_h3 : Q -> Q -> Z -> option string;
  (** [h3.h3_to_geo_boundary(cell)]: the ring of a cell's hexagon. *)
  h3_boundary : string -> option (list coord);
  (** The number a piece of text that is not empty denotes for
      [pd.to_numeric], an integer or a float, if any. *)
  parse_number : string -> option (Z + float);
  (** NumPy's cast of a [float64] to a [datetime64]. *)
  datetime_of_float : float -> value;
  (** Whether the output driver manages to write a layer to a path, and
      the files it leaves behind when it does not. *)
  driver_writes : string -> GeoDataFrame -> fsys -> bool;
  driver_leaves : string -> GeoDataFrame -> fsys -> fsys
}.

Section Script.

Context {L : Libraries}.

(** [os.path.exists(path)] *)
Definition path_exists (path : string) : M bool :=
  fun w => (Ok (match files w path with Some _ => true | None => false end), w).

(** [gpd.read_file(path)] *)
Definition read_file (path : string) : M frame :=
  log (ReadFile path) ;;
  fun w =>
    match files w path with
    | Some (Dataset gdf) => (Ok (Geo gdf), w)
    | Some (Table df) => (Ok (Plain df), w)
    | Some Unparseable | None => (Err UnreadableGeometry, w)
    end.

(** What [pd.to_numeric] makes of one value of a column of objects: a
    missing value and the empty text become [NaN], a number stays what
    it is, any other text is parsed, and nothing else is accepted. *)
Definition numeric_value (v : value) : option value :=
  match v with
  | NA => Some (Float nan)
  | Integer n => Some (Integer n)
  | Float x => Some (Float x)
  | Str s =>
      if String.eqb s "" then Some (Float nan)
      else match parse_number s with
           | Some (inl n) => Some (Integer n)
           | Some (inr x) => Some (Float x)
           | None => None
           end
  | Timestamp _ | Geom _ => None
  end.

Definition is_integer (v : value) : bool :=
  match v with Integer _ => true | _ => false end.

Definition to_float64 (v : value) : value :=
  match v with Integer n => Float (float_of_Z n) | _ => v end.

(** The values of the converted column: integers when every value is
    one ([int64]), and floats otherwise ([float64]). *)
Definition common_type (vs : list value) : list value :=
  if forallb is_integer vs then vs else map to_float64 vs.

(** [pd.to_numeric(series)] *)
Definition to_numeric (s : Series) : M Series :=
  log ToNumeric ;;
  lift match traverse numeric_value (values s) with
       | Some vs => Ok {| dtype_of := Numeric; values := common_type vs |}
       | None => Err ToNumericError
       end.

(** The name h3pandas gives the column of cells; the script builds the
    same name to group by. *)
Definition h3_column (resolution : Z) : string :=
  ("h3_" ++ format_02 resolution)%string.

(** The cell of one row: h3pandas reads the [x] and [y] of the row's
    geometry, which only a point has. *)
Definition h3_index (resolution : Z) (f : Feature) : option string :=
  match geometry f with
  | Some (Point x y) => h3_geo_to_h3 y x resolution
  | _ => None
  end.

Definition with_cell (name : string) (c : string) (f : Feature) : Feature :=
  {| geometry := geometry f;
     properties := (name, Str c) :: drop_key name (properties f) |}.

Fixpoint with_cells (name : string) (cs : list string) (fs : list Feature)
  : list Feature :=
  match cs, fs with
  | c :: cs', f :: fs' => with_cell name c f :: with_cells name cs' fs'
  | _, _ => []
  end.

(** [gdf.h3.geo_to_h3(resolution).reset_index()]: h3pandas indexes the
    frame by the cell of every row, and [reset_index] turns that index
    into the first column. *)
Definition geo_to_h3 (resolution : Z) (gdf : GeoDataFrame) : M GeoDataFrame :=
  log (GeoToH3 resolution) ;;
  lift match traverse (h3_index resolution) (features gdf) with
       | Some cs =>
           let name := h3_column resolution in
           Ok {| dtypes := (name, cells_dtype cs) :: drop_key name (dtypes gdf);
                 features := with_cells name cs (features gdf) |}
       | None => Err CellAssignError
       end.

(** A mean as a value of the column of means: a float for a numeric
    column, [NaN] for a group without observations; for a column of
    times the mean is cast back to a time, and is [NaT] for a group
    without observations. *)
Definition of_mean (d : dtype) (m : option float) : value :=
  match d, m with
  | Datetime64, Some x => datetime_of_float x
  | Datetime64, None => NA
  | _, Some x => Float x
  | _, None => Float nan
  end.

(** [gdf.groupby(by).agg({col: "mean"})]: the frame of the means,
    indexed by the group key.  The mean of numbers and of times is
    taken in one pass over the rows.  For any other column pandas asks
    group after group for its mean, and the first group raises: there
    is no mean of text and of geometries.  A frame without a group
    comes out as a frame without rows. *)
Definition groupby_agg_mean (by_ col : string) (gdf : GeoDataFrame)
  : M Means :=
  log GroupbyMean ;;
  keys <- lift (getitem gdf by_) ;;
  scores <- lift (getitem gdf col) ;;
  lift match observations (dtype_of scores) (values scores) with
       | Some xs =>
           Ok {| index_dtype := dtype_of keys;
                 mean_dtype := dtype_of scores;
                 records :=
                   map (fun r => (fst r, of_mean (dtype_of scores) (snd r)))
                     (group_mean (keyed (values keys) xs)) |}
       | None =>
           if has_group (values keys) then Err AggregationError
           else Ok {| index_dtype := dtype_of keys;
                      mean_dtype := dtype_of scores;
                      records := [] |}
       end.

Definition hexagon (by_ col : string) (row : string * value)
  : option Feature :=
  match h3_boundary (fst row) with
  | Some ring =>
      Some {| geometry := Some (Polygon ring);
              properties := [(by_, Str (fst row)); (col, snd row)] |}
  | None => None
  end.

(** [means.h3.h3_to_geo_boundary()]: one hexagon per row of the frame
    of means; written out, the index is the first column. *)
Definition h3_to_geo_boundary (by_ col : string) (means : Means)
  : M GeoDataFrame :=
  log H3ToGeoBoundary ;;
  lift match traverse (hexagon by_ col) (records means) with
       | Some fs => Ok {| dtypes := [(by_, index_dtype means);
                                     (col, mean_dtype means)];
                          features := fs |}
       | None => Err BoundaryError
       end.

(** [gdf.to_file(path)] *)
Definition to_file (gdf : GeoDataFrame) (path : string) : M unit :=
  log (ToFile path gdf) ;;
  fun w =>
    if driver_writes path gdf (files w)
    then (Ok tt, {| files := write path gdf (files w); calls := calls w |})
    else (Err WriteError,
          {| files := driver_leaves path gdf (files w); calls := calls w |}).

(** Lines 85-86: [gdf = gdf[~gdf[score_field].isna()]] *)
Definition exclude_missing (score_field : string) (gdf : GeoDataFrame)
  : M GeoDataFrame :=
  scores <- lift (getitem gdf score_field) ;;
  ret (getitem_mask gdf (invert (isna scores))).

(** Lines 88-93: the conversion of a score column that is not numeric. *)
Definition convert_score (score_field : string) (gdf : GeoDataFrame)
  : M GeoDataFrame :=
  scores <- lift (getitem gdf score_field) ;;
  if eq_StringDtype_class (dtype_of scores) then
    try_except
      (scores <- lift (getitem gdf score_field) ;;
       converted <- to_numeric scores ;;
       ret (setitem gdf score_field converted))
      (fun e => raise (ScoreCoercionError e))
  else ret gdf.

(** Lines 58-107.  Every check reads the file again.  What line 83
    reads has got past line 71, and is a GeoDataFrame. *)
Definition main (input_file score_field output_file : string)
  (cell_resolution : Z) : M unit :=
  found <- path_exists input_file ;;
  (if found then ret tt else raise InputNotFound) ;;
  try_except (read_file input_file) (fun e => raise e) ;;
  layer <- read_file input_file ;;
  geoms <- lift (geometry_of layer) ;;
  (if has_point geoms then ret tt else raise NoPointGeometry) ;;
  layer <- read_file input_file ;;
  (if mem score_field (frame_columns layer) then ret tt
   else raise MissingScoreField) ;;
  gdf <- read_file input_file ;;
  gdf <- exclude_missing score_field (data gdf) ;;
  gdf <- convert_score score_field gdf ;;
  gdf_h3 <- geo_to_h3 cell_resolution gdf ;;
  gvi_mean <- groupby_agg_mean ("h3_" ++ format_02 cell_resolution)%string
                score_field gdf_h3 ;;
  gvi_hex <- h3_to_geo_boundary (h3_column cell_resolution) score_field
               gvi_mean ;;
  to_file gvi_hex output_file.

(** The command line: [cell_resolution] is optional and defaults to 10
    (lines 34-40). *)
Record argv := {
  arg_input_file : string;
  arg_score_field : string;
  arg_output_file : string;
  arg_cell_resolution : option Z
}.

Definition app (a : argv) : M unit :=
  main (arg_input_file a) (arg_score_field a) (arg_output_file a)
    (match arg_cell_resolution a with Some r => r | None => 10 end).

(** One run of the command on a file system. *)
Definition run (a : argv) (fs : fsys) : result unit * world :=
  app a {| files := fs; calls := [] |}.

(** *** The stages, as parts of [main] *)

(** The Score Normalizer, lines 85-93. *)
Definition score_normalizer (score_field : string) (gdf : GeoDataFrame)
  : M GeoDataFrame :=
  gdf <- exclude_missing score_field gdf ;;
  convert_score score_field gdf.

(** From the loaded layer to the hexagons, lines 85-104. *)
Definition hexagons_of (score_field : string) (cell_resolution : Z)
  (gdf : GeoDataFrame) : M GeoDataFrame :=
  gdf <- score_normalizer score_field gdf ;;
  gdf_h3 <- geo_to_h3 cell_resolution gdf ;;
  gvi_mean <- groupby_agg_mean (h3_column cell_resolution) score_field gdf_h3 ;;
  h3_to_geo_boundary (h3_column cell_resolution) score_field gvi_mean.

End Script.

(** The world after some more calls. *)
Definition logged (w : world) (cs : list call) : world :=
  {| files := files w; calls := calls w ++ cs |}.

Definition blank : world := {| files := fun _ => None; calls := [] |}.

(** The hexagons the stages make of a layer, or the error they raise,
    and the library calls they make on the way. *)
Definition hexagons {L : Libraries} (score_field : string)
  (cell_resolution : Z) (gdf : GeoDataFrame) : result GeoDataFrame :=
  fst (hexagons_of score_field cell_resolution gdf blank).

Definition stage_calls {L : Libraries} (score_field : string)
  (cell_resolution : Z) (gdf : GeoDataFrame) : list call :=
  calls (snd (hexagons_of score_field cell_resolution gdf blank)).

(** A computation that neither reads nor writes the files: its result
    and the calls it makes are those it makes in the blank world. *)
Definition oblivious {A : Type} (m : M A) : Prop :=
  forall w, m w = (fst (m blank), logged w (calls (snd (m blank)))).

(** The rows that have a score. *)
Definition scored (score_field : string) (fs : list Feature) : list Feature :=
  filter (fun f => negb (isna_value (cell score_field f))) fs.

(** The errors of the stages between the validation and the Writer. *)
Definition raised_by_stages (e : exn) : bool :=
  match e with
  | ScoreCoercionError _ | KeyError _ | CellAssignError
  | AggregationError | BoundaryError => true
  | InputNotFound | UnreadableGeometry | AttributeError | NoPointGeometry
  | MissingScoreField | ToNumericError | WriteError => false
  end.


Definition is_coercion_error (e : exn) : bool :=
  match e with ScoreCoercionError _ => true | _ => false end.

(** The calls that read the input. *)
Definition is_read (c : call) : bool :=
  match c with ReadFile _ => true | _ => false end.

(** The call that writes. *)
Definition writes (c : call) : bool :=
  match c with ToFile _ _ => true | _ => false end.

(** A computation that leaves the files alone and makes only calls
    that satisfy [P]. *)
Definition confined (P : call -> Prop) {A : Type} (m : M A) : Prop :=
  oblivious m /\ Forall P (calls (snd (m blank))).

(** The resolution a command line asks for. *)
Definition resolution_of (a : argv) : Z :=
  match arg_cell_resolution a with Some r => r | None => 10 end.

(** Whether a row holds a point. *)
Definition is_point (f : Feature) : bool :=
  match geometry f with Some (Point _ _) => true | _ => false end.


(** Whether a cell of a column can be held under a numeric dtype. *)
Definition is_float (v : value) : bool :=
  match v with NA | Integer _ | Float _ => true | _ => false end.

(** Whether a cell holds an integer or a float, [NaN] included. *)
Definition is_numeric (v : value) : bool :=
  match v with Integer _ | Float _ => true | _ => false end.

(** A value as an observation of the mean, if it is one. *)
Definition number_of (v : value) : option float :=
  match as_float v with Some x => x | None => None end.


(** A mean of numbers as a value. *)
Definition mean_value (m : option float) : value :=
  match m with Some x => Float x | None => Float nan end.

(** The hexagons of rows given with their cells and their scores: the
    mean per cell, one hexagon per cell. *)
Definition averaged {L : Libraries} (score_field : string)
  (cell_resolution : Z) (cs : list string) (xs : list (option float))
  : result GeoDataFrame :=
  match traverse (hexagon (h3_column cell_resolution) score_field)
          (map (fun r => (fst r, mean_value (snd r)))
             (group_mean (combine cs xs))) with
  | Some hs =>
      Ok {| dtypes := [(h3_column cell_resolution, cells_dtype cs);
                       (score_field, Numeric)];
            features := hs |}
  | None => Err BoundaryError
  end.


(** What the stages make of a layer whose scores are text under the
    object dtype: the texts of the rows with a score are read as
    numbers, then the rows are put in their cells and averaged as
    numeric scores are. *)
Definition converted_hexagons {L : Libraries} (score_field : string)
  (cell_resolution : Z) (gdf : GeoDataFrame) : result GeoDataFrame :=
  let rows := scored score_field (features gdf) in
  match traverse numeric_value (map (cell score_field) rows) with
  | None => Err (ScoreCoercionError ToNumericError)
  | Some vs =>
      match traverse (h3_index cell_resolution) rows with
      | None => Err CellAssignError
      | Some cs =>
          averaged score_field cell_resolution cs
            (map number_of (common_type vs))
      end
  end.

(** The library calls of a run in which every stage is reached, with
    or without the conversion of the scores. *)
Definition all_calls (a : argv) (converted : bool) (hex : GeoDataFrame)
  : list call :=
  [ReadFile (arg_input_file a); ReadFile (arg_input_file a);
   ReadFile (arg_input_file a); ReadFile (arg_input_file a)]
  ++ (if converted then [ToNumeric] else [])
  ++ [GeoToH3 (resolution_of a); GroupbyMean; H3ToGeoBoundary;
      ToFile (arg_output_file a) hex].

(** ** What the Aggregator is measured against *)





(** The number a score stands for. *)
Definition exact (v : value) : option Q :=
  match v with
  | Integer n => Some (inject_Z n)
  | Float x => rational x
  | _ => None
  end.







(** ** Stand-ins for the libraries, to run the script on examples *)

Module Double.

(** A one-degree grid in place of the H3 index: the cell of a point is
    named after the integer parts of its latitude and longitude. *)
Definition floor_name (q : Q) : string :=
  NilZero.string_of_int (Z.to_int (Qfloor q)).

Definition grid_cell (lat lng : Q) (resolution : Z) : option string :=
  if (0 <=? resolution) && (resolution <=? 15)
  then Some (floor_name lat ++ "/" ++ floor_name lng)%string
  else None.

(** Every cell gets the same ring. *)
Definition unit_ring (c : string) : option (list coord) :=
  Some [(0, 0); (1, 0); (1, 1); (0, 1); (0, 0)]%Q.

(** Text that is a whole number in decimal. *)
Definition whole_number (s : string) : option (Z + float) :=
  option_map (fun i => inl (Z.of_int i)) (NilZero.int_of_string s).

(** The time of the nanosecond a float falls in, and [NaT] for what is
    not finite. *)
Definition time_of_float (x : float) : value :=
  match truncate x with Some ns => Timestamp ns | None => NA end.

Definition always_writes (p : string) (d : GeoDataFrame) (fs : fsys) : bool :=
  true.

Definition leaves_untouched (p : string) (d : GeoDataFrame) (fs : fsys) : fsys :=
  fs.

#[export] Instance grid : Libraries := {|
  h3_geo_to_h3 := grid_cell;
  h3_boundary := unit_ring;
  parse_number := whole_number;
  datetime_of_float := time_of_float;
  driver_writes := always_writes;
  driver_leaves := leaves_untouched
|}.

(** A driver that creates the file and then fails, leaving something
    that does not parse. *)
Definition leaves_partial (p : string) (d : GeoDataFrame) (fs : fsys) : fsys :=
  fun q => if String.eqb q p then Some Unparseable else fs q.

Definition full_disk : Libraries := {|
  h3_geo_to_h3 := grid_cell;
  h3_boundary := unit_ring;
  parse_number := whole_number;
  datetime_of_float := time_of_float;
  driver_writes := fun _ _ _ => false;
  driver_leaves := leaves_partial
|}.

Definition point_row (x y : Q) (score : value) : Feature :=
  {| geometry := Some (Point x y); properties := [("gvi", score)] |}.

(** Two points of one cell with the scores 2.0 and 4.0. *)
Definition two_points : GeoDataFrame :=
  {| dtypes := [("gvi", Numeric)];
     features := [point_row (1 # 2) (1 # 3) (Float 2);
                  point_row (1 # 4) (2 # 3) (Float 4)] |}.

(** The same two points with their scores as text, under NumPy's
    object dtype and under pandas' string dtype. *)
Definition text_rows : list Feature :=
  [point_row (1 # 2) (1 # 3) (Str "2"); point_row (1 # 4) (2 # 3) (Str "4")].

Definition text_as_object : GeoDataFrame :=
  {| dtypes := [("gvi", Object)]; features := text_rows |}.

Definition text_as_string : GeoDataFrame :=
  {| dtypes := [("gvi", StringDtype)]; features := text_rows |}.

(** What [pd.to_numeric] makes of the two texts: whole numbers. *)
Definition two_whole_points : GeoDataFrame :=
  {| dtypes := [("gvi", Numeric)];
     features := [point_row (1 # 2) (1 # 3) (Integer 2);
                  point_row (1 # 4) (2 # 3) (Integer 4)] |}.

(** One score that is not a number. *)
Definition words_as_object : GeoDataFrame :=
  {| dtypes := [("gvi", Object)];
     features := [point_row (1 # 2) (1 # 3) (Str "high")] |}.

Definition words_as_string : GeoDataFrame :=
  {| dtypes := [("gvi", StringDtype)];
     features := [point_row (1 # 2) (1 # 3) (Str "high")] |}.

(** One score that is the empty text. *)
Definition empty_text_as_object : GeoDataFrame :=
  {| dtypes := [("gvi", Object)];
     features := [point_row (1 # 2) (1 # 3) (Str "")] |}.


(** A road next to a point. *)
Definition road : Feature :=
  {| geometry := Some (LineString [(0, 0); (1, 1)]%Q);
     properties := [("gvi", Float 1)] |}.

Definition mixed : GeoDataFrame :=
  {| dtypes := [("gvi", Numeric)];
     features := [road; point_row (1 # 2) (1 # 3) (Float 2)] |}.

(** Roads only, and no score field. *)
Definition roads_only : GeoDataFrame :=
  {| dtypes := [("name", Object)];
     features := [{| geometry := Some (LineString [(0, 0); (1, 1)]%Q);
                     properties := [("name", Str "A1")] |}] |}.

(** A point without a score field. *)
Definition unscored_points : GeoDataFrame :=
  {| dtypes := [("name", Object)];
     features := [{| geometry := Some (Point (1 # 2) (1 # 3));
                     properties := [("name", Str "A1")] |}] |}.

(** A table of scores without geometries. *)
Definition scores_table : GeoDataFrame :=
  {| dtypes := [("gvi", Numeric)];
     features := [{| geometry := None; properties := [("gvi", Float 2)] |}] |}.



(** Two points of one cell whose scores are times, one second apart. *)
Definition two_times : GeoDataFrame :=
  {| dtypes := [("gvi", Datetime64)];
     features := [point_row (1 # 2) (1 # 3) (Timestamp 1000000000);
                  point_row (1 # 4) (2 # 3) (Timestamp 2000000000)] |}.

Definition only (path : string) (f : file) : fsys :=
  fun p => if String.eqb p path then Some f else None.

(** The same file next to one that does not parse. *)
Definition beside (path : string) (f : file) : fsys :=
  fun p => if String.eqb p "notes.txt" then Some Unparseable else only path f p.

Definition unit_hexagon (score : value) : Feature :=
  {| geometry := Some (Polygon [(0, 0); (1, 0); (1, 1); (0, 1); (0, 0)]%Q);
     properties := [("h3_10", Str "0/0"); ("gvi", score)] |}.

(** The hexagon of the two points. *)
Definition one_hexagon : GeoDataFrame :=
  {| dtypes := [("h3_10", Object); ("gvi", Numeric)];
     features := [unit_hexagon (Float 3)] |}.

(** The two points with their cell in the first column. *)
Definition in_cell (f : Feature) : Feature :=
  {| geometry := geometry f;
     properties := ("h3_10", Str "0/0") :: properties f |}.

Definition two_points_in_cells : GeoDataFrame :=
  {| dtypes := [("h3_10", Object); ("gvi", Numeric)];
     features := map in_cell (features two_points) |}.


(** The file system with the two points only, and the world after the
    command has run on it. *)
Definition points_fs : fsys := only "points.gpkg" (Dataset two_points).

Definition after_run : world :=
  {| files := write "hex.gpkg" one_hexagon points_fs;
     calls := [ReadFile "points.gpkg"; ReadFile "points.gpkg";
               ReadFile "points.gpkg"; ReadFile "points.gpkg";
               GeoToH3 10; GroupbyMean; H3ToGeoBoundary;
               ToFile "hex.gpkg" one_hexagon] |}.


Definition cli (resolution : option Z) : argv :=
  {| arg_input_file := "points.gpkg"; arg_score_field := "gvi";
     arg_output_file := "hex.gpkg"; arg_cell_resolution := resolution |}.

End Double.

(** * Properties *)

Unset Implicit Arguments.

(** ** The Aggregator *)






















(** ** The monad and the files *)

Lemma logged_nil w : logged w [] = w.
Proof.
  destruct w as [fs cs]. unfold logged. simpl. rewrite app_nil_r. reflexivity.
Qed.

Lemma logged_logged w cs cs' : logged (logged w cs) cs' = logged w (cs ++ cs').
Proof.
  unfold logged. simpl. rewrite app_assoc. reflexivity.
Qed.

Lemma bind_ok {A B : Type} (m : M A) (k : A -> M B) w a w' :
  m w = (Ok a, w') -> bind m k w = k a w'.
Proof.
  intros H. unfold bind. rewrite H. reflexivity.
Qed.

Lemma bind_err {A B : Type} (m : M A) (k : A -> M B) w e w' :
  m w = (Err e, w') -> bind m k w = (Err e, w').
Proof.
  intros H. unfold bind. rewrite H. reflexivity.
Qed.

Lemma oblivious_ret {A : Type} (a : A) : oblivious (ret a).
Proof.
  intros w. unfold ret. simpl. rewrite logged_nil. reflexivity.
Qed.

Lemma oblivious_raise {A : Type} (e : exn) : oblivious (@raise A e).
Proof.
  intros w. unfold raise. simpl. rewrite logged_nil. reflexivity.
Qed.

Lemma oblivious_lift {A : Type} (r : result A) : oblivious (lift r).
Proof.
  intros w. unfold lift. simpl. rewrite logged_nil. reflexivity.
Qed.

Lemma oblivious_log c : oblivious (log c).
Proof.
  intros w. reflexivity.
Qed.

Lemma oblivious_bind {A B : Type} (m : M A) (k : A -> M B) :
  oblivious m -> (forall a, oblivious (k a)) -> oblivious (bind m k).
Proof.
  intros Hm Hk w. unfold bind.
  pose proof (Hm w) as Hw. pose proof (Hm blank) as Hb.
  destruct (m blank) as [r wb] eqn:Eb. simpl in Hw, Hb.
  rewrite Hw. clear Hb.
  destruct r as [a | e].
  - rewrite (Hk a (logged w (calls wb))), (Hk a wb). simpl.
    rewrite logged_logged. reflexivity.
  - reflexivity.
Qed.

Lemma oblivious_try_except {A : Type} (m : M A) (h : exn -> M A) :
  oblivious m -> (forall e, oblivious (h e)) -> oblivious (try_except m h).
Proof.
  intros Hm Hh w. unfold try_except.
  pose proof (Hm w) as Hw. pose proof (Hm blank) as Hb.
  destruct (m blank) as [r wb] eqn:Eb. simpl in Hw, Hb.
  rewrite Hw. clear Hb.
  destruct r as [a | e].
  - reflexivity.
  - rewrite (Hh e (logged w (calls wb))), (Hh e wb). simpl.
    rewrite logged_logged. reflexivity.
Qed.

Create HintDb oblivious.
#[export] Hint Resolve oblivious_ret oblivious_raise oblivious_lift
  oblivious_log : oblivious.
Section Correctness.

Context {L : Libraries}.

(** ** The validation, lines 58-80 *)

Lemma main_absent i sf o res w :
  files w i = None -> main i sf o res w = (Err InputNotFound, w).
Proof.
  intros H. unfold main, bind, path_exists. rewrite H. reflexivity.
Qed.

Lemma main_unparseable i sf o res w :
  files w i = Some Unparseable ->
  main i sf o res w = (Err UnreadableGeometry, logged w [ReadFile i]).
Proof.
  intros H.
  unfold main, bind, path_exists, try_except, read_file, bind, log, ret, raise.
  simpl. rewrite H. simpl. rewrite H. reflexivity.
Qed.

Lemma read_file_dataset i g w :
  files w i = Some (Dataset g) ->
  read_file i w = (Ok (Geo g), logged w [ReadFile i]).
Proof.
  intros H. unfold read_file, bind, log. simpl. rewrite H. reflexivity.
Qed.

Lemma read_file_table i t w :
  files w i = Some (Table t) ->
  read_file i w = (Ok (Plain t), logged w [ReadFile i]).
Proof.
  intros H. unfold read_file, bind, log. simpl. rewrite H. reflexivity.
Qed.

(** A table without geometries is read twice: the second time for its
    geometries, which it has not. *)
Lemma main_table i sf o res w t :
  files w i = Some (Table t) ->
  main i sf o res w = (Err AttributeError, logged w [ReadFile i; ReadFile i]).
Proof.
  intros H. unfold main.
  erewrite bind_ok; [| unfold path_exists; rewrite H; reflexivity].
  erewrite bind_ok; [| reflexivity].
  erewrite bind_ok;
    [| unfold try_except; rewrite (read_file_table i t w H); reflexivity].
  erewrite bind_ok; [| apply read_file_table; exact H].
  rewrite ?logged_logged; simpl List.app.
  erewrite bind_err; reflexivity.
Qed.

(** A layer that parses goes through the two checks and then through
    the stages. *)
Lemma main_dataset i sf o res w g :
  files w i = Some (Dataset g) ->
  main i sf o res w =
  if has_point g then
    if mem sf (columns g) then
      bind (hexagons_of sf res g) (fun hex => to_file hex o)
        (logged w [ReadFile i; ReadFile i; ReadFile i; ReadFile i])
    else (Err MissingScoreField, logged w [ReadFile i; ReadFile i; ReadFile i])
  else (Err NoPointGeometry, logged w [ReadFile i; ReadFile i]).
Proof.
  intros H. unfold main.
  erewrite bind_ok; [| unfold path_exists; rewrite H; reflexivity].
  erewrite bind_ok; [| reflexivity].
  erewrite bind_ok;
    [| unfold try_except; rewrite (read_file_dataset i g w H); reflexivity].
  erewrite bind_ok; [| apply read_file_dataset; exact H].
  rewrite ?logged_logged; simpl List.app.
  erewrite bind_ok; [| reflexivity].
  destruct (has_point g); [| erewrite bind_err; reflexivity].
  erewrite bind_ok; [| reflexivity].
  erewrite bind_ok; [| apply read_file_dataset; exact H].
  rewrite ?logged_logged; simpl List.app.
  cbn [frame_columns].
  destruct (mem sf (columns g)); [| erewrite bind_err; reflexivity].
  erewrite bind_ok; [| reflexivity].
  erewrite bind_ok; [| apply read_file_dataset; exact H].
  rewrite ?logged_logged; simpl List.app. cbn [data].
  set (W := logged w [ReadFile i; ReadFile i; ReadFile i; ReadFile i]).
  unfold hexagons_of, score_normalizer, h3_column, bind.
  destruct (exclude_missing sf g W) as [[g1 | e1] w1]; [| reflexivity].
  destruct (convert_score sf g1 w1) as [[g2 | e2] w2]; [| reflexivity].
  destruct (geo_to_h3 res g2 w2) as [[g3 | e3] w3]; [| reflexivity].
  destruct (groupby_agg_mean _ sf g3 w3) as [[g4 | e4] w4]; [| reflexivity].
  destruct (h3_to_geo_boundary _ sf g4 w4) as [[g5 | e5] w5]; reflexivity.
Qed.

(** ** The check for points, line 71 *)

Lemma type_eqb_eq a b : type_eqb a b = true <-> a = b.
Proof.
  destruct a as [x |], b as [y |]; simpl; try (split; congruence).
  rewrite String.eqb_eq. split; congruence.
Qed.

Lemma unique_In x l : In x (unique l) <-> In x l.
Proof.
  induction l as [| y l IH]; simpl; [reflexivity |].
  rewrite filter_In, IH. split.
  - intuition.
  - intros [-> | Hin]; [auto |].
    destruct (type_eqb y x) eqn:E.
    + left. apply type_eqb_eq. exact E.
    + right. auto.
Qed.

Lemma has_point_exists gdf :
  has_point gdf = true <-> exists f, In f (features gdf) /\ is_point f = true.
Proof.
  unfold has_point. rewrite existsb_exists. split.
  - intros [t [Hin Heq]]. apply type_eqb_eq in Heq. subst t.
    rewrite unique_In in Hin. unfold geometry_type in Hin.
    apply in_map_iff in Hin. destruct Hin as [f [Hty Hin]].
    exists f. split; trivial. unfold is_point.
    destruct (geometry f) as [[x y | pts | pts | ring] |]; simpl in Hty;
      try discriminate; reflexivity.
  - intros [f [Hin Hpt]]. exists (Some "Point"). split.
    + rewrite unique_In. unfold geometry_type. apply in_map_iff.
      exists f. split; trivial. unfold is_point in Hpt.
      destruct (geometry f) as [[x y | pts | pts | ring] |];
        try discriminate; reflexivity.
    + reflexivity.
Qed.

(** ** The errors of the later stages *)

Lemma to_file_spec hex o w :
  to_file hex o w =
  if driver_writes o hex (files w)
  then (Ok tt, {| files := write o hex (files w);
                  calls := calls w ++ [ToFile o hex] |})
  else (Err WriteError, {| files := driver_leaves o hex (files w);
                           calls := calls w ++ [ToFile o hex] |}).
Proof.
  unfold to_file, bind, log. simpl. reflexivity.
Qed.

Ltac split_matches :=
  repeat match goal with
         | H : (_, _) = (_, _) |- _ => injection H as ? ?; subst
         | H : Err ?a = Err ?b |- _ => is_var b; injection H as ?; subst
         | H : Ok ?a = Ok ?b |- _ => is_var b; injection H as ?; subst
         | H : context [match ?x with _ => _ end] |- _ => destruct x eqn:?
         | H : Ok _ = Err _ |- _ => discriminate H
         | H : Err _ = Ok _ |- _ => discriminate H
         end.

Lemma exclude_missing_raises sf gdf w e w' :
  exclude_missing sf gdf w = (Err e, w') -> raised_by_stages e = true.
Proof.
  unfold exclude_missing, getitem, bind, lift, ret. intros H.
  split_matches; reflexivity.
Qed.

Lemma convert_score_raises sf gdf w e w' :
  convert_score sf gdf w = (Err e, w') -> raised_by_stages e = true.
Proof.
  unfold convert_score, try_except, to_numeric, getitem, bind, lift, ret,
    raise, log.
  intros H. split_matches; reflexivity.
Qed.

Lemma geo_to_h3_raises res gdf w e w' :
  geo_to_h3 res gdf w = (Err e, w') -> raised_by_stages e = true.
Proof.
  unfold geo_to_h3, bind, lift, log. intros H. split_matches; reflexivity.
Qed.

Lemma groupby_raises by_ col gdf w e w' :
  groupby_agg_mean by_ col gdf w = (Err e, w') ->
  raised_by_stages e = true.
Proof.
  unfold groupby_agg_mean, getitem, bind, lift, log. intros H.
  split_matches; reflexivity.
Qed.

Lemma boundary_raises by_ col means w e w' :
  h3_to_geo_boundary by_ col means w = (Err e, w') ->
  raised_by_stages e = true.
Proof.
  unfold h3_to_geo_boundary, bind, lift, log. intros H.
  split_matches; reflexivity.
Qed.

Lemma hexagons_of_raises sf res gdf w e w' :
  hexagons_of sf res gdf w = (Err e, w') -> raised_by_stages e = true.
Proof.
  unfold hexagons_of, score_normalizer, bind. intros H.
  destruct (exclude_missing sf gdf w) as [[g1 | e1] w1] eqn:E1.
  2: { injection H as <- _. eapply exclude_missing_raises; exact E1. }
  destruct (convert_score sf g1 w1) as [[g2 | e2] w2] eqn:E2.
  2: { injection H as <- _. eapply convert_score_raises; exact E2. }
  destruct (geo_to_h3 res g2 w2) as [[g3 | e3] w3] eqn:E3.
  2: { injection H as <- _. eapply geo_to_h3_raises; exact E3. }
  destruct (groupby_agg_mean (h3_column res) sf g3 w3)
    as [[g4 | e4] w4] eqn:E4.
  2: { injection H as <- _. eapply groupby_raises; exact E4. }
  eapply boundary_raises; exact H.
Qed.

(** ** What the stages before the Writer do to the world *)

Lemma confined_bind {A B : Type} P (m : M A) (k : A -> M B) :
  confined P m -> (forall a, confined P (k a)) -> confined P (bind m k).
Proof.
  intros [Hm Pm] Hk. split.
  - apply oblivious_bind; [exact Hm | intros a; apply Hk].
  - unfold bind. destruct (m blank) as [[a | e] wb]; simpl in Pm.
    + destruct (Hk a) as [Ha Pa]. rewrite (Ha wb). simpl.
      apply Forall_app. auto.
    + exact Pm.
Qed.

Lemma confined_try_except {A : Type} P (m : M A) (h : exn -> M A) :
  confined P m -> (forall e, confined P (h e)) -> confined P (try_except m h).
Proof.
  intros [Hm Pm] Hh. split.
  - apply oblivious_try_except; [exact Hm | intros e; apply Hh].
  - unfold try_except. destruct (m blank) as [[a | e] wb]; simpl in Pm.
    + exact Pm.
    + destruct (Hh e) as [He Pe]. rewrite (He wb). simpl.
      apply Forall_app. auto.
Qed.

Lemma confined_silent {A : Type} P (m : M A) :
  oblivious m -> calls (snd (m blank)) = [] -> confined P m.
Proof.
  intros Hm Hc. split; [exact Hm |]. rewrite Hc. constructor.
Qed.

Lemma confined_log (P : call -> Prop) c : P c -> confined P (log c).
Proof.
  intros Hc. split; [apply oblivious_log |]. simpl. auto.
Qed.

Ltac confined :=
  repeat first
    [ apply confined_bind; [| intros ?]
    | apply confined_try_except; [| intros ?]
    | apply confined_log; first [reflexivity | intros ? ?; congruence]
    | apply confined_silent; [auto with oblivious | reflexivity]
    | match goal with |- confined _ (if ?b then _ else _) => destruct b end ].

Lemma confined_hexagons_of sf res gdf :
  confined (fun c => writes c = false) (hexagons_of sf res gdf).
Proof.
  unfold hexagons_of, score_normalizer, exclude_missing, convert_score,
    to_numeric, geo_to_h3, groupby_agg_mean, h3_to_geo_boundary.
  confined.
Qed.

(** The Cell Assigner is called at the resolution of the run only. *)
Lemma stage_calls_resolution sf res gdf :
  Forall (fun c => forall r, c = GeoToH3 r -> r = res) (stage_calls sf res gdf).
Proof.
  unfold stage_calls.
  refine (proj2 (_ : confined _ (hexagons_of sf res gdf))).
  unfold hexagons_of, score_normalizer, exclude_missing, convert_score,
    to_numeric, geo_to_h3, groupby_agg_mean, h3_to_geo_boundary.
  confined.
Qed.

Lemma geo_to_h3_world res gdf w r w' :
  geo_to_h3 res gdf w = (r, w') -> w' = logged w [GeoToH3 res].
Proof.
  unfold geo_to_h3, bind, lift, log. simpl. intros H. injection H as _ <-.
  reflexivity.
Qed.

Lemma groupby_world by_ col gdf w r w' :
  groupby_agg_mean by_ col gdf w = (r, w') -> w' = logged w [GroupbyMean].
Proof.
  unfold groupby_agg_mean, getitem, bind, lift, log. simpl. intros H.
  split_matches; reflexivity.
Qed.

Lemma boundary_world by_ col means w r w' :
  h3_to_geo_boundary by_ col means w = (r, w') ->
  w' = logged w [H3ToGeoBoundary].
Proof.
  unfold h3_to_geo_boundary, bind, lift, log. simpl. intros H.
  injection H as _ <-. reflexivity.
Qed.

(** When the stages succeed, the Cell Assigner, the Aggregator and the
    Boundary Materializer were the last three calls. *)
Lemma hexagons_of_ok_calls sf res gdf w hex w' :
  hexagons_of sf res gdf w = (Ok hex, w') ->
  exists pre, calls w' = pre ++ [GeoToH3 res; GroupbyMean; H3ToGeoBoundary].
Proof.
  unfold hexagons_of, bind. intros H.
  destruct (score_normalizer sf gdf w) as [[g2 | e2] w2]; [| discriminate].
  destruct (geo_to_h3 res g2 w2) as [[g3 | e3] w3] eqn:E3; [| discriminate].
  destruct (groupby_agg_mean (h3_column res) sf g3 w3)
    as [[g4 | e4] w4] eqn:E4; [| discriminate].
  apply geo_to_h3_world in E3. apply groupby_world in E4.
  apply boundary_world in H. subst. exists (calls w2). simpl.
  rewrite <- !app_assoc. reflexivity.
Qed.

Lemma run_dataset a fs g :
  fs (arg_input_file a) = Some (Dataset g) ->
  run a fs =
  let i := arg_input_file a in
  if has_point g then
    if mem (arg_score_field a) (columns g) then
      bind (hexagons_of (arg_score_field a) (resolution_of a) g)
        (fun hex => to_file hex (arg_output_file a))
        {| files := fs; calls := [ReadFile i; ReadFile i; ReadFile i; ReadFile i] |}
    else (Err MissingScoreField,
          {| files := fs; calls := [ReadFile i; ReadFile i; ReadFile i] |})
  else (Err NoPointGeometry, {| files := fs; calls := [ReadFile i; ReadFile i] |}).
Proof.
  intros H. unfold run, app.
  apply (main_dataset _ _ _ _ {| files := fs; calls := [] |} g). exact H.
Qed.

(** One run, by what the input path holds. *)
Lemma run_spec a fs :
  let i := arg_input_file a in
  let sf := arg_score_field a in
  let o := arg_output_file a in
  let res := resolution_of a in
  let reads := [ReadFile i; ReadFile i; ReadFile i; ReadFile i] in
  run a fs =
  match fs i with
  | None => (Err InputNotFound, {| files := fs; calls := [] |})
  | Some Unparseable =>
      (Err UnreadableGeometry, {| files := fs; calls := [ReadFile i] |})
  | Some (Table t) =>
      (Err AttributeError, {| files := fs; calls := [ReadFile i; ReadFile i] |})
  | Some (Dataset g) =>
      if has_point g then
        if mem sf (columns g) then
          match hexagons sf res g with
          | Ok hex =>
              if driver_writes o hex fs then
                (Ok tt,
                 {| files := write o hex fs;
                    calls := reads ++ stage_calls sf res g ++ [ToFile o hex] |})
              else
                (Err WriteError,
                 {| files := driver_leaves o hex fs;
                    calls := reads ++ stage_calls sf res g ++ [ToFile o hex] |})
          | Err e =>
              (Err e, {| files := fs; calls := reads ++ stage_calls sf res g |})
          end
        else (Err MissingScoreField,
              {| files := fs; calls := [ReadFile i; ReadFile i; ReadFile i] |})
      else (Err NoPointGeometry,
            {| files := fs; calls := [ReadFile i; ReadFile i] |})
  end.
Proof.
  intros i sf o res reads.
  destruct (fs i) as [[| t | g] |] eqn:E.
  - apply (main_unparseable _ _ _ _ {| files := fs; calls := [] |}). exact E.
  - apply (main_table _ _ _ _ {| files := fs; calls := [] |} t). exact E.
  - rewrite (run_dataset a fs g E). cbv zeta. fold i sf o res reads.
    destruct (has_point g); [| reflexivity].
    destruct (mem sf (columns g)); [| reflexivity].
    unfold bind.
    rewrite (proj1 (confined_hexagons_of sf res g) {| files := fs; calls := reads |}).
    fold (hexagons sf res g). fold (stage_calls sf res g).
    destruct (hexagons sf res g) as [hex | e]; [| reflexivity].
    rewrite to_file_spec. unfold reads, logged. simpl files. simpl calls.
    simpl List.app. reflexivity.
  - apply (main_absent _ _ _ _ {| files := fs; calls := [] |}). exact E.
Qed.

Lemma hexagons_raises sf res g e :
  hexagons sf res g = Err e -> raised_by_stages e = true.
Proof.
  unfold hexagons. intros H.
  destruct (hexagons_of sf res g blank) as [r w'] eqn:E. simpl in H. subst r.
  eapply hexagons_of_raises. exact E.
Qed.

Lemma stage_calls_no_write sf res g :
  existsb writes (stage_calls sf res g) = false.
Proof.
  destruct (confined_hexagons_of sf res g) as [_ Hc].
  fold (stage_calls sf res g) in Hc.
  induction Hc as [| c cs Hc _ IH]; simpl; [reflexivity |].
  rewrite Hc, IH. reflexivity.
Qed.

Lemma stage_calls_ok sf res g hex :
  hexagons sf res g = Ok hex ->
  exists pre,
    stage_calls sf res g = pre ++ [GeoToH3 res; GroupbyMean; H3ToGeoBoundary].
Proof.
  unfold hexagons, stage_calls. intros H.
  destruct (hexagons_of sf res g blank) as [r w'] eqn:E. simpl in H. subst r.
  eapply hexagons_of_ok_calls. exact E.
Qed.

Lemma has_point_In gdf :
  has_point gdf = true <-> In (Some "Point") (geometry_type gdf).
Proof.
  unfold has_point. rewrite existsb_exists. split.
  - intros [t [Hin Heq]]. apply type_eqb_eq in Heq. subst t.
    rewrite unique_In in Hin. exact Hin.
  - intros Hin. exists (Some "Point"). split; [| reflexivity].
    rewrite unique_In. exact Hin.
Qed.
(** ** C5 *)

(** C5.  For a layer that parses, the run fails with NoPointGeometry
    exactly when "Point" is not among the geometry types of the layer.
    A layer with at least one point feature among features of other
    types passes the check.  When the check fails, no file has changed
    and the only library calls made are reads of the input: nothing
    was aggregated. *)
Theorem no_point_geometry_exactly a fs g :
  fs (arg_input_file a) = Some (Dataset g) ->
  (fst (run a fs) = Err NoPointGeometry <->
   ~ In (Some "Point") (geometry_type g)) /\
  ((exists f, In f (features g) /\ is_point f = true) ->
   fst (run a fs) <> Err NoPointGeometry) /\
  (~ In (Some "Point") (geometry_type g) ->
   files (snd (run a fs)) = fs /\
   forallb is_read (calls (snd (run a fs))) = true).
Proof.
  intros Hg. pose proof (run_spec a fs) as Hrun. cbv zeta in Hrun.
  rewrite Hg in Hrun. rewrite Hrun. clear Hrun.
  rewrite <- has_point_In.
  destruct (has_point g) eqn:Hp.
  - match goal with
    | |- (fst ?t = _ <-> _) /\ _ =>
        assert (Hne : fst t <> Err NoPointGeometry)
    end.
    { destruct (mem (arg_score_field a) (columns g)); [| discriminate].
      destruct (hexagons _ _ g) as [hex | e] eqn:E.
      - destruct (driver_writes _ hex fs); discriminate.
      - apply hexagons_raises in E. simpl. intros H. injection H as ->.
        discriminate. }
    split; [| split].
    + split; [intros H; exfalso; exact (Hne H) |].
      intros H. exfalso. apply H. reflexivity.
    + intros _. exact Hne.
    + intros H. exfalso. apply H. reflexivity.
  - split; [| split].
    + split; [discriminate | reflexivity].
    + intros Hex. apply has_point_exists in Hex. congruence.
    + intros _. split; reflexivity.
Qed.

(** ** C6 *)

(** C6, amended.  For a layer that parses and holds a point, if the
    score field is not among the columns of the layer (its attribute
    fields and the geometry column), the run fails with
    MissingScoreField; no file has changed and the only library calls
    made are three reads of the input: nothing was aggregated. *)
Theorem missing_score_field_after_point_check a fs g :
  fs (arg_input_file a) = Some (Dataset g) ->
  In (Some "Point") (geometry_type g) ->
  ~ In (arg_score_field a) (columns g) ->
  run a fs =
  (Err MissingScoreField,
   {| files := fs;
      calls := [ReadFile (arg_input_file a); ReadFile (arg_input_file a);
                ReadFile (arg_input_file a)] |}).
Proof.
  intros Hg Hp Hf. pose proof (run_spec a fs) as Hrun. cbv zeta in Hrun.
  rewrite Hg in Hrun. rewrite Hrun. clear Hrun.
  apply has_point_In in Hp. rewrite Hp.
  destruct (mem (arg_score_field a) (columns g)) eqn:Hm; [| reflexivity].
  exfalso. apply Hf. unfold mem in Hm. apply existsb_exists in Hm.
  destruct Hm as [c [Hin Heq]]. apply String.eqb_eq in Heq. subst c. exact Hin.
Qed.

(** ** C7 *)

(** C7, amended.  A run ends in one of three ways.  All stages
    complete: the Cell Assigner, the Aggregator, the Boundary
    Materializer and the Writer are the last calls, and the output
    path holds the hexagons that were handed to the Writer.  Or the
    run fails before the Writer: the Writer is not called and every
    file, the output path included, is as it was before the run.  Or
    the Writer fails: the files are what the driver left. *)
Theorem run_outcome a fs :
  (exists hex pre,
     fst (run a fs) = Ok tt /\
     calls (snd (run a fs)) =
     pre ++ [GeoToH3 (resolution_of a); GroupbyMean; H3ToGeoBoundary;
             ToFile (arg_output_file a) hex] /\
     files (snd (run a fs)) (arg_output_file a) = Some (Dataset hex))
  \/ (exists e,
        fst (run a fs) = Err e /\ e <> WriteError /\
        files (snd (run a fs)) = fs /\
        existsb writes (calls (snd (run a fs))) = false)
  \/ (exists hex,
        fst (run a fs) = Err WriteError /\
        In (ToFile (arg_output_file a) hex) (calls (snd (run a fs))) /\
        files (snd (run a fs)) = driver_leaves (arg_output_file a) hex fs).
Proof.
  pose proof (run_spec a fs) as Hrun. cbv zeta in Hrun. rewrite Hrun. clear Hrun.
  destruct (fs (arg_input_file a)) as [[| t | g] |].
  - right. left. exists UnreadableGeometry. simpl. intuition discriminate.
  - right. left. exists AttributeError. simpl. intuition discriminate.
  - destruct (has_point g).
    2: { right. left. exists NoPointGeometry. simpl. intuition discriminate. }
    destruct (mem (arg_score_field a) (columns g)).
    2: { right. left. exists MissingScoreField. simpl. intuition discriminate. }
    destruct (hexagons _ _ g) as [hex | e] eqn:E.
    + destruct (driver_writes _ hex fs).
      * left. destruct (stage_calls_ok _ _ _ _ E) as [pre Hpre].
        exists hex, (ReadFile (arg_input_file a) :: ReadFile (arg_input_file a)
                     :: ReadFile (arg_input_file a)
                     :: ReadFile (arg_input_file a) :: pre).
        rewrite Hpre. cbn [fst snd calls files].
        split; [reflexivity |]. split.
        -- simpl. rewrite <- app_assoc. reflexivity.
        -- unfold write. rewrite String.eqb_refl. reflexivity.
      * right. right. exists hex. cbn [fst snd calls files].
        split; [reflexivity |]. split; [| reflexivity].
        rewrite !in_app_iff. simpl. auto.
    + right. left. exists e. simpl.
      apply hexagons_raises in E. repeat split.
      * intros ->. discriminate.
      * apply stage_calls_no_write.
  - right. left. exists InputNotFound. simpl. intuition discriminate.
Qed.

(** ** C8 *)

(** C8.  Two runs of the same command on file systems that hold the
    same thing at the input path make the same library calls, the
    layer handed to the Writer included; when both write, the output
    path holds the same layer afterwards; and they end alike unless
    the Writer fails in one of them. *)
Theorem run_deterministic a fs1 fs2 :
  fs1 (arg_input_file a) = fs2 (arg_input_file a) ->
  calls (snd (run a fs1)) = calls (snd (run a fs2)) /\
  (fst (run a fs1) = Ok tt -> fst (run a fs2) = Ok tt ->
   files (snd (run a fs1)) (arg_output_file a) =
   files (snd (run a fs2)) (arg_output_file a)) /\
  (fst (run a fs1) <> Err WriteError -> fst (run a fs2) <> Err WriteError ->
   fst (run a fs1) = fst (run a fs2)).
Proof.
  intros Hsame.
  pose proof (run_spec a fs1) as H1. pose proof (run_spec a fs2) as H2.
  cbv zeta in H1, H2. rewrite H1, H2. clear H1 H2. rewrite <- Hsame.
  assert (Hw : forall hex,
            write (arg_output_file a) hex fs1 (arg_output_file a) =
            write (arg_output_file a) hex fs2 (arg_output_file a)).
  { intros hex. unfold write. rewrite String.eqb_refl. reflexivity. }
  destruct (fs1 (arg_input_file a)) as [[| t | g] |];
    [simpl; repeat split; congruence | simpl; repeat split; congruence
    | | simpl; repeat split; congruence].
  destruct (has_point g); [| simpl; repeat split; congruence].
  destruct (mem (arg_score_field a) (columns g));
    [| simpl; repeat split; congruence].
  destruct (hexagons _ _ g) as [hex | e]; [| simpl; repeat split; congruence].
  destruct (driver_writes _ hex fs1), (driver_writes _ hex fs2); simpl;
    repeat split; try discriminate; try congruence; auto.
Qed.

(** ** C9 *)

(** C9.  Without the [cell_resolution] argument the command is [main]
    at the resolution 10: every call of the Cell Assigner in such a run
    is at the resolution 10, and the cells are grouped by the column
    "h3_10". *)
Theorem default_resolution_is_10 input_file score_field output_file :
  app {| arg_input_file := input_file; arg_score_field := score_field;
         arg_output_file := output_file; arg_cell_resolution := None |} =
  main input_file score_field output_file 10 /\
  (forall fs r,
     In (GeoToH3 r)
       (calls (snd (run {| arg_input_file := input_file;
                           arg_score_field := score_field;
                           arg_output_file := output_file;
                           arg_cell_resolution := None |} fs))) ->
     r = 10) /\
  h3_column 10 = "h3_10".
Proof.
  split; [reflexivity |]. split; [| reflexivity].
  intros fs r. set (a := {| arg_cell_resolution := None |}).
  pose proof (run_spec a fs) as Hrun. cbv zeta in Hrun. rewrite Hrun.
  clear Hrun.
  assert (Hst : forall g, In (GeoToH3 r)
                  (stage_calls (arg_score_field a) (resolution_of a) g) ->
                r = 10).
  { intros g Hin.
    pose proof (stage_calls_resolution (arg_score_field a) (resolution_of a) g)
      as Hall.
    rewrite Forall_forall in Hall. exact (Hall _ Hin r eq_refl). }
  destruct (fs (arg_input_file a)) as [[| t | g] |];
    [cbn [snd calls In]; intuition discriminate
    | cbn [snd calls In]; intuition discriminate | | contradiction].
  destruct (has_point g); [| cbn [snd calls In]; intuition discriminate].
  destruct (mem (arg_score_field a) (columns g));
    [| cbn [snd calls In]; intuition discriminate].
  assert (Hreads : forall cs,
            In (GeoToH3 r)
              ([ReadFile (arg_input_file a); ReadFile (arg_input_file a);
                ReadFile (arg_input_file a); ReadFile (arg_input_file a)]
               ++ cs) ->
            In (GeoToH3 r) cs).
  { intros cs Hin. apply in_app_or in Hin. destruct Hin as [Hin | Hin];
      [| exact Hin].
    simpl in Hin. intuition discriminate. }
  assert (Hlast : forall g' hex,
            In (GeoToH3 r)
              (stage_calls (arg_score_field a) (resolution_of a) g'
               ++ [ToFile (arg_output_file a) hex]) ->
            r = 10).
  { intros g' hex Hin. apply in_app_or in Hin. destruct Hin as [Hin | Hin];
      [eapply Hst; exact Hin |].
    simpl in Hin. intuition discriminate. }
  destruct (hexagons _ _ g) as [hex | e].
  - destruct (driver_writes _ hex fs); cbn [snd calls]; intros Hin;
      apply Hreads in Hin; eapply Hlast; exact Hin.
  - cbn [snd calls]. intros Hin. apply Hreads in Hin. eapply Hst. exact Hin.
Qed.

(** ** The Score Normalizer, lines 85-93 *)

Lemma mem_In k l : mem k l = true <-> In k l.
Proof.
  unfold mem. rewrite existsb_exists. split.
  - intros [c [Hin Heq]]. apply String.eqb_eq in Heq. subst c. exact Hin.
  - intros Hin. exists k. split; [exact Hin | apply String.eqb_refl].
Qed.

Lemma select_scored sf fs :
  select (invert (map isna_value (map (cell sf) fs))) fs = scored sf fs.
Proof.
  induction fs as [| f fs IH]; simpl; [reflexivity |].
  rewrite IH. destruct (isna_value (cell sf f)); reflexivity.
Qed.

Lemma exclude_missing_spec sf g w :
  exclude_missing sf g w =
  if mem sf (columns g)
  then (Ok {| dtypes := dtypes g; features := scored sf (features g) |}, w)
  else (Err (KeyError sf), w).
Proof.
  unfold exclude_missing, getitem, bind, lift, ret.
  destruct (mem sf (columns g)); [| reflexivity].
  unfold getitem_mask, isna. simpl. rewrite select_scored. reflexivity.
Qed.

Lemma convert_score_spec sf g w :
  mem sf (columns g) = true ->
  convert_score sf g w =
  if eq_StringDtype_class (column_dtype sf g) then
    match traverse numeric_value (map (cell sf) (features g)) with
    | Some vs =>
        (Ok (setitem g sf {| dtype_of := Numeric; values := common_type vs |}),
         logged w [ToNumeric])
    | None => (Err (ScoreCoercionError ToNumericError), logged w [ToNumeric])
    end
  else (Ok g, w).
Proof.
  intros Hm.
  unfold convert_score, try_except, to_numeric, getitem, bind, lift, ret,
    raise, log.
  rewrite Hm. simpl.
  destruct (eq_StringDtype_class (column_dtype sf g)); [| reflexivity].
  destruct (traverse numeric_value (map (cell sf) (features g))); reflexivity.
Qed.

Lemma scored_In sf fs f :
  In f (scored sf fs) <-> In f fs /\ isna_value (cell sf f) = false.
Proof.
  unfold scored. rewrite filter_In, negb_true_iff. reflexivity.
Qed.


Lemma traverse_length {A B : Type} (f : A -> option B) l bs :
  traverse f l = Some bs -> List.length bs = List.length l.
Proof.
  revert bs. induction l as [| a l IH]; simpl; intros bs H.
  - injection H as <-. reflexivity.
  - destruct (f a); [| discriminate].
    destruct (traverse f l) as [bs' |]; [| discriminate].
    injection H as <-. simpl. rewrite (IH bs'); reflexivity.
Qed.








(** ** C2 *)


(** ** The conversion, lines 88-93 *)

Lemma guard_object d : eq_StringDtype_class d = true <-> d = Object.
Proof.
  destruct d; simpl; split; congruence.
Qed.

Lemma score_normalizer_spec sf g w :
  mem sf (columns g) = true ->
  score_normalizer sf g w =
  convert_score sf {| dtypes := dtypes g; features := scored sf (features g) |} w.
Proof.
  intros Hm. unfold score_normalizer, bind.
  rewrite exclude_missing_spec, Hm. reflexivity.
Qed.

Lemma score_normalizer_skip sf g w :
  mem sf (columns g) = true ->
  eq_StringDtype_class (column_dtype sf g) = false ->
  score_normalizer sf g w =
  (Ok {| dtypes := dtypes g; features := scored sf (features g) |}, w).
Proof.
  intros Hm Hd. rewrite (score_normalizer_spec sf g w Hm).
  rewrite convert_score_spec; [| exact Hm].
  change (column_dtype sf {| dtypes := dtypes g;
                             features := scored sf (features g) |})
    with (column_dtype sf g).
  rewrite Hd. reflexivity.
Qed.

Lemma traverse_None sf fs :
  traverse numeric_value (map (cell sf) fs) = None <->
  exists f, In f fs /\ numeric_value (cell sf f) = None.
Proof.
  induction fs as [| f fs IH]; simpl.
  - split; [discriminate | intros [f [[] _]]].
  - destruct (numeric_value (cell sf f)) eqn:Ef.
    + destruct (traverse numeric_value (map (cell sf) fs)) eqn:Et.
      * split; [discriminate |].
        intros [f' [[<- | Hin] Hn]]; [congruence |].
        assert (H0 : Some l = None) by (apply IH; exists f'; auto).
        discriminate.
      * split; [| reflexivity]. intros _.
        destruct (proj1 IH eq_refl) as [f' [Hin Hn]]. exists f'. auto.
    + split; [| reflexivity]. intros _. exists f. auto.
Qed.

(** A column under the object dtype is converted: the run fails with
    ScoreCoercionError, carrying the error of [pd.to_numeric], exactly
    when some score that is left cannot be read as a number. *)
Lemma object_scores_coerced sf g w :
  mem sf (columns g) = true ->
  column_dtype sf g = Object ->
  snd (score_normalizer sf g w) = logged w [ToNumeric] /\
  ((exists e, fst (score_normalizer sf g w) = Err (ScoreCoercionError e)) <->
   exists f, In f (scored sf (features g)) /\ numeric_value (cell sf f) = None).
Proof.
  intros Hm Hd. rewrite (score_normalizer_spec sf g w Hm).
  rewrite convert_score_spec; [| exact Hm].
  change (column_dtype sf {| dtypes := dtypes g;
                             features := scored sf (features g) |})
    with (column_dtype sf g).
  rewrite Hd. simpl eq_StringDtype_class. cbv iota. simpl features.
  pose proof (traverse_None sf (scored sf (features g))) as Htr.
  destruct (traverse numeric_value (map (cell sf) (scored sf (features g)))).
  - split; [reflexivity |].
    simpl. split; [intros [e He]; discriminate |].
    intros Hex. apply Htr in Hex. discriminate.
  - split; [reflexivity |].
    simpl. split; [intros _; apply Htr; reflexivity |].
    intros _. exists ToNumericError. reflexivity.
Qed.

Lemma geo_to_h3_not_coercion res gdf w e w' :
  geo_to_h3 res gdf w = (Err e, w') -> is_coercion_error e = false.
Proof.
  unfold geo_to_h3, bind, lift, log. intros H. split_matches; reflexivity.
Qed.

Lemma groupby_not_coercion by_ col gdf w e w' :
  groupby_agg_mean by_ col gdf w = (Err e, w') -> is_coercion_error e = false.
Proof.
  unfold groupby_agg_mean, getitem, bind, lift, log. intros H.
  split_matches; reflexivity.
Qed.

Lemma boundary_not_coercion by_ col means w e w' :
  h3_to_geo_boundary by_ col means w = (Err e, w') ->
  is_coercion_error e = false.
Proof.
  unfold h3_to_geo_boundary, bind, lift, log. intros H.
  split_matches; reflexivity.
Qed.

Lemma later_stages_no_coercion sf res g2 w r w' :
  bind (geo_to_h3 res g2)
    (fun g3 => bind (groupby_agg_mean (h3_column res) sf g3)
                 (fun means => h3_to_geo_boundary (h3_column res) sf means)) w
  = (r, w') ->
  (forall e, r = Err e -> is_coercion_error e = false) /\
  (In ToNumeric (calls w') -> In ToNumeric (calls w)).
Proof.
  unfold bind. intros H.
  destruct (geo_to_h3 res g2 w) as [[g3 | e3] w3] eqn:E3.
  - pose proof (geo_to_h3_world _ _ _ _ _ E3) as Hw3. subst w3.
    destruct (groupby_agg_mean (h3_column res) sf g3 _)
      as [[g4 | e4] w4] eqn:E4.
    + pose proof (groupby_world _ _ _ _ _ _ E4) as Hw4. subst w4.
      pose proof (boundary_world _ _ _ _ _ _ H) as Hw'. subst w'. split.
      * intros e Hr. subst r. eapply boundary_not_coercion. exact H.
      * simpl. rewrite !in_app_iff. simpl.
        intuition discriminate.
    + pose proof (groupby_world _ _ _ _ _ _ E4) as Hw4.
      injection H as <- <-. subst w4. split.
      * intros e He. injection He as <-. eapply groupby_not_coercion.
        exact E4.
      * simpl. rewrite !in_app_iff. simpl. intuition discriminate.
  - pose proof (geo_to_h3_world _ _ _ _ _ E3) as Hw3.
    injection H as <- <-. subst w3. split.
    + intros e He. injection He as <-. eapply geo_to_h3_not_coercion.
      exact E3.
    + simpl. rewrite in_app_iff. simpl. intuition discriminate.
Qed.

Lemma hexagons_no_coercion sf res g :
  mem sf (columns g) = true ->
  eq_StringDtype_class (column_dtype sf g) = false ->
  (forall e, hexagons sf res g = Err e -> is_coercion_error e = false) /\
  ~ In ToNumeric (stage_calls sf res g).
Proof.
  intros Hm Hd. unfold hexagons, stage_calls.
  assert (Heq : hexagons_of sf res g blank =
    bind (geo_to_h3 res {| dtypes := dtypes g;
                           features := scored sf (features g) |})
      (fun g3 => bind (groupby_agg_mean (h3_column res) sf g3)
                   (fun means => h3_to_geo_boundary (h3_column res) sf means))
      blank).
  { unfold hexagons_of. erewrite bind_ok; [reflexivity |].
    apply score_normalizer_skip; assumption. }
  rewrite Heq. clear Heq.
  match goal with
  | |- context [fst ?t] => destruct t as [r w'] eqn:E
  end.
  apply later_stages_no_coercion in E. destruct E as [He Hc].
  simpl. split; [exact He |]. intros Hin. apply Hc in Hin. exact Hin.
Qed.

(** The conversion is attempted for the object dtype only. *)
Lemma no_coercion_unless_object a fs g :
  fs (arg_input_file a) = Some (Dataset g) ->
  In (arg_score_field a) (columns g) ->
  column_dtype (arg_score_field a) g <> Object ->
  (forall d, eq_StringDtype_class d = true <-> d = Object) /\
  (forall w,
     score_normalizer (arg_score_field a) g w =
     (Ok {| dtypes := dtypes g;
            features := scored (arg_score_field a) (features g) |}, w)) /\
  (forall e, fst (run a fs) <> Err (ScoreCoercionError e)) /\
  ~ In ToNumeric (calls (snd (run a fs))).
Proof.
  intros Hg Hcol Hd. apply mem_In in Hcol.
  assert (Hguard : eq_StringDtype_class (column_dtype (arg_score_field a) g)
                   = false).
  { destruct (eq_StringDtype_class _) eqn:E; [| reflexivity].
    apply guard_object in E. contradiction. }
  split; [exact guard_object |].
  split; [intros w; apply score_normalizer_skip; assumption |].
  destruct (hexagons_no_coercion (arg_score_field a) (resolution_of a) g
              Hcol Hguard) as [He Hc].
  pose proof (run_spec a fs) as Hrun. cbv zeta in Hrun.
  rewrite Hg, Hcol in Hrun. rewrite Hrun. clear Hrun.
  destruct (has_point g).
  2: { simpl. split; [discriminate | intuition discriminate]. }
  destruct (hexagons _ _ g) as [hex | e] eqn:E.
  - destruct (driver_writes _ hex fs); simpl.
    + split; [discriminate |]. rewrite !in_app_iff. simpl.
      intuition discriminate.
    + split; [discriminate |]. rewrite !in_app_iff. simpl.
      intuition discriminate.
  - simpl. split.
    + intros e' He'. injection He' as ->. specialize (He _ eq_refl).
      discriminate.
    + intuition discriminate.
Qed.
(** * Further properties of the script *)

(** ** The checks of the input path, lines 58-68 *)

Lemma run_dataset_error a fs g e :
  fs (arg_input_file a) = Some (Dataset g) ->
  fst (run a fs) = Err e ->
  e = NoPointGeometry \/ e = MissingScoreField \/
  raised_by_stages e = true \/ e = WriteError.
Proof.
  intros Hg. pose proof (run_spec a fs) as Hrun. cbv zeta in Hrun.
  rewrite Hg in Hrun. rewrite Hrun. clear Hrun.
  destruct (has_point g); [| simpl; intros H; injection H as <-; auto].
  destruct (mem (arg_score_field a) (columns g));
    [| simpl; intros H; injection H as <-; auto].
  destruct (hexagons _ _ g) as [hex | e'] eqn:E.
  - destruct (driver_writes _ hex fs); simpl; [discriminate |].
    intros H. injection H as <-. auto.
  - simpl. intros H. injection H as <-. apply hexagons_raises in E. auto.
Qed.

(** X1.  A run fails with InputNotFound exactly when nothing is at
    the input path; it then has made no library call, not even a read,
    and has left every file as it was. *)
Theorem input_not_found_exactly a fs :
  (fst (run a fs) = Err InputNotFound <-> fs (arg_input_file a) = None) /\
  (fst (run a fs) = Err InputNotFound ->
   run a fs = (Err InputNotFound, {| files := fs; calls := [] |})).
Proof.
  assert (Hiff : fst (run a fs) = Err InputNotFound <->
                 fs (arg_input_file a) = None).
  { split.
    - intros H. destruct (fs (arg_input_file a)) as [[| t | g] |] eqn:E;
        [| | | reflexivity].
      + pose proof (run_spec a fs) as Hrun. cbv zeta in Hrun.
        rewrite E in Hrun. rewrite Hrun in H. discriminate.
      + pose proof (run_spec a fs) as Hrun. cbv zeta in Hrun.
        rewrite E in Hrun. rewrite Hrun in H. discriminate.
      + destruct (run_dataset_error a fs g _ E H) as [H0 | [H0 | [H0 | H0]]];
          discriminate.
    - intros E. pose proof (run_spec a fs) as Hrun. cbv zeta in Hrun.
      rewrite E in Hrun. rewrite Hrun. reflexivity. }
  split; [exact Hiff |].
  intros H. apply Hiff in H.
  pose proof (run_spec a fs) as Hrun. cbv zeta in Hrun.
  rewrite H in Hrun. exact Hrun.
Qed.

(** X2.  A run fails with the error of [gpd.read_file] exactly when
    the input path holds something that does not parse; the error is
    raised again as it is, after one read, and no file has changed. *)
Theorem unreadable_input_exactly a fs :
  (fst (run a fs) = Err UnreadableGeometry <->
   fs (arg_input_file a) = Some Unparseable) /\
  (fst (run a fs) = Err UnreadableGeometry ->
   run a fs = (Err UnreadableGeometry,
               {| files := fs; calls := [ReadFile (arg_input_file a)] |})).
Proof.
  assert (Hiff : fst (run a fs) = Err UnreadableGeometry <->
                 fs (arg_input_file a) = Some Unparseable).
  { split.
    - intros H. destruct (fs (arg_input_file a)) as [[| t | g] |] eqn:E;
        [reflexivity | | |].
      + pose proof (run_spec a fs) as Hrun. cbv zeta in Hrun.
        rewrite E in Hrun. rewrite Hrun in H. discriminate.
      + destruct (run_dataset_error a fs g _ E H) as [H0 | [H0 | [H0 | H0]]];
          discriminate.
      + pose proof (run_spec a fs) as Hrun. cbv zeta in Hrun.
        rewrite E in Hrun. rewrite Hrun in H. discriminate.
    - intros E. pose proof (run_spec a fs) as Hrun. cbv zeta in Hrun.
      rewrite E in Hrun. rewrite Hrun. reflexivity. }
  split; [exact Hiff |].
  intros H. apply Hiff in H.
  pose proof (run_spec a fs) as Hrun. cbv zeta in Hrun.
  rewrite H in Hrun. exact Hrun.
Qed.

(** ** The reads of the input, lines 66-83 *)

Lemma stage_calls_no_read sf res gdf :
  existsb is_read (stage_calls sf res gdf) = false.
Proof.
  assert (Hc : Forall (fun c => is_read c = false) (stage_calls sf res gdf)).
  { unfold stage_calls.
    refine (proj2 (_ : confined _ (hexagons_of sf res gdf))).
    unfold hexagons_of, score_normalizer, exclude_missing, convert_score,
      to_numeric, geo_to_h3, groupby_agg_mean, h3_to_geo_boundary.
    confined. }
  induction Hc as [| c cs Hc _ IH]; simpl; [reflexivity |].
  rewrite Hc, IH. reflexivity.
Qed.

(** X3.  The calls of a run start with the reads of the input path,
    at most four of them, and no later call is a read: no other path
    is ever read.  There are four reads exactly when the path holds a
    layer that passes both checks; the layer is then parsed once for
    the reader's check, once for each of the two checks and once more
    to be processed. *)
Theorem input_read_up_to_four_times a fs :
  exists n rest,
    calls (snd (run a fs)) = repeat (ReadFile (arg_input_file a)) n ++ rest /\
    existsb is_read rest = false /\
    (n <= 4)%nat /\
    (n = 4%nat <->
     exists g, fs (arg_input_file a) = Some (Dataset g) /\
               has_point g = true /\
               mem (arg_score_field a) (columns g) = true).
Proof.
  pose proof (run_spec a fs) as Hrun. cbv zeta in Hrun. rewrite Hrun.
  clear Hrun.
  destruct (fs (arg_input_file a)) as [[| t | g] |].
  - exists 1%nat, []. simpl. repeat split; try lia.
    intros [g [H _]]. discriminate.
  - exists 2%nat, []. simpl. repeat split; try lia.
    intros [g [H _]]. discriminate.
  - destruct (has_point g) eqn:Hp.
    2: { exists 2%nat, []. simpl. repeat split; try lia.
         intros [g' [H [Hp' _]]]. injection H as <-. congruence. }
    destruct (mem (arg_score_field a) (columns g)) eqn:Hm.
    2: { exists 3%nat, []. simpl. repeat split; try lia.
         intros [g' [H [_ Hm']]]. injection H as <-. congruence. }
    assert (Hv : 4%nat = 4%nat <->
                 exists g', Some (Dataset g) = Some (Dataset g') /\
                            has_point g' = true /\
                            mem (arg_score_field a) (columns g') = true).
    { split; [| reflexivity]. intros _. exists g. auto. }
    pose proof (stage_calls_no_read (arg_score_field a) (resolution_of a) g)
      as Hs.
    destruct (hexagons _ _ g) as [hex | e].
    + destruct (driver_writes _ hex fs).
      * exists 4%nat, (stage_calls (arg_score_field a) (resolution_of a) g
                       ++ [ToFile (arg_output_file a) hex]).
        simpl snd. simpl calls. split; [reflexivity |].
        split; [| split; [lia | exact Hv]].
        rewrite existsb_app, Hs. reflexivity.
      * exists 4%nat, (stage_calls (arg_score_field a) (resolution_of a) g
                       ++ [ToFile (arg_output_file a) hex]).
        simpl snd. simpl calls. split; [reflexivity |].
        split; [| split; [lia | exact Hv]].
        rewrite existsb_app, Hs. reflexivity.
    + exists 4%nat, (stage_calls (arg_score_field a) (resolution_of a) g).
      simpl snd. simpl calls. split; [reflexivity |].
      split; [exact Hs | split; [lia | exact Hv]].
  - exists 0%nat, []. simpl. repeat split; try lia.
    intros [g [H _]]. discriminate.
Qed.
(** ** Columns and rows *)

Lemma assoc_assign_same {A : Type} k (v : A) l : assoc k (assign k v l) = Some v.
Proof.
  induction l as [| [k' a'] l IH]; simpl.
  - rewrite String.eqb_refl. reflexivity.
  - destruct (String.eqb k k') eqn:E; simpl.
    + rewrite String.eqb_refl. reflexivity.
    + rewrite E. exact IH.
Qed.

Lemma assoc_assign_other {A : Type} k k' (v : A) l :
  k' <> k -> assoc k' (assign k v l) = assoc k' l.
Proof.
  intros Hne. apply String.eqb_neq in Hne.
  induction l as [| [k0 a0] l IH]; simpl.
  - rewrite Hne. reflexivity.
  - destruct (String.eqb k k0) eqn:E; simpl.
    + apply String.eqb_eq in E. subst k0. rewrite Hne. reflexivity.
    + rewrite IH. reflexivity.
Qed.

Lemma assoc_drop_key {A : Type} k n (l : list (string * A)) :
  k <> n -> assoc k (drop_key n l) = assoc k l.
Proof.
  intros Hne. induction l as [| [k0 a0] l IH]; simpl; [reflexivity |].
  destruct (String.eqb n k0) eqn:E; simpl.
  - apply String.eqb_eq in E. subst k0.
    apply String.eqb_neq in Hne. rewrite Hne. exact IH.
  - rewrite IH. reflexivity.
Qed.

Lemma keys_assign {A : Type} k (v : A) l k' :
  In k' (map fst (assign k v l)) <-> k' = k \/ In k' (map fst l).
Proof.
  induction l as [| [k0 a0] l IH]; simpl.
  - intuition.
  - destruct (String.eqb k k0) eqn:E; simpl.
    + apply String.eqb_eq in E. subst k0. intuition.
    + rewrite IH. intuition.
Qed.

Lemma keys_drop_key {A : Type} n (l : list (string * A)) k :
  In k (map fst (drop_key n l)) <-> In k (map fst l) /\ k <> n.
Proof.
  unfold drop_key. rewrite !in_map_iff. split.
  - intros [[k0 a0] [Hk Hin]]. simpl in Hk. subst k0.
    apply filter_In in Hin. destruct Hin as [Hin Hb]. simpl in Hb.
    apply negb_true_iff, String.eqb_neq in Hb. split; [| congruence].
    exists (k, a0). auto.
  - intros [[[k0 a0] [Hk Hin]] Hne]. simpl in Hk. subst k0.
    exists (k, a0). split; [reflexivity |]. apply filter_In. split; [exact Hin |].
    simpl. apply negb_true_iff, String.eqb_neq. congruence.
Qed.

Lemma geometry_set_cell name v f :
  name <> "geometry" -> geometry (set_cell name v f) = geometry f.
Proof.
  intros Hne. apply String.eqb_neq in Hne. unfold set_cell. rewrite Hne.
  reflexivity.
Qed.

Lemma cell_set_cell_same name v f :
  name <> "geometry" -> cell name (set_cell name v f) = v.
Proof.
  intros Hne. apply String.eqb_neq in Hne. unfold cell, set_cell.
  rewrite Hne. simpl. rewrite assoc_assign_same. reflexivity.
Qed.

Lemma cell_set_cell_other name name' v f :
  name' <> name -> cell name' (set_cell name v f) = cell name' f.
Proof.
  intros Hne. unfold cell, set_cell.
  destruct (String.eqb name "geometry") eqn:E; simpl.
  - apply String.eqb_eq in E. subst name.
    apply String.eqb_neq in Hne. rewrite Hne. reflexivity.
  - destruct (String.eqb name' "geometry"); [reflexivity |].
    rewrite assoc_assign_other; [reflexivity | exact Hne].
Qed.

Lemma h3_column_not_geometry res : h3_column res <> "geometry".
Proof.
  unfold h3_column. simpl. discriminate.
Qed.

Lemma cell_with_cell_same name c f :
  name <> "geometry" -> cell name (with_cell name c f) = Str c.
Proof.
  intros Hne. apply String.eqb_neq in Hne. unfold cell, with_cell.
  rewrite Hne. simpl. rewrite String.eqb_refl. reflexivity.
Qed.

Lemma cell_with_cell_other name name' c f :
  name' <> name -> cell name' (with_cell name c f) = cell name' f.
Proof.
  intros Hne. unfold cell, with_cell. simpl.
  destruct (String.eqb name' "geometry"); [reflexivity |].
  pose proof Hne as Hb. apply String.eqb_neq in Hb. rewrite Hb.
  rewrite assoc_drop_key; [reflexivity | exact Hne].
Qed.

Lemma set_cells_same name vs fs :
  name <> "geometry" -> List.length vs = List.length fs ->
  map (cell name) (set_cells name vs fs) = vs.
Proof.
  intros Hne. revert fs.
  induction vs as [| v vs IH]; intros [| f fs]; simpl; try discriminate;
    [reflexivity |].
  intros Hl. rewrite cell_set_cell_same by exact Hne.
  rewrite IH; [reflexivity | lia].
Qed.

Lemma set_cells_other {B : Type} (h : Feature -> B) name vs fs :
  (forall v f, h (set_cell name v f) = h f) ->
  map h (set_cells name vs fs) = map h fs.
Proof.
  intros Hh. revert fs.
  induction vs as [| v vs IH]; intros [| f fs]; simpl; try reflexivity.
  rewrite Hh, IH. reflexivity.
Qed.

Lemma with_cells_same name cs fs :
  name <> "geometry" -> List.length cs = List.length fs ->
  map (cell name) (with_cells name cs fs) = map Str cs.
Proof.
  intros Hne. revert fs.
  induction cs as [| c cs IH]; intros [| f fs]; simpl; try discriminate;
    [reflexivity |].
  intros Hl. rewrite cell_with_cell_same by exact Hne.
  rewrite IH; [reflexivity | lia].
Qed.

Lemma with_cells_other {B : Type} (h : Feature -> B) name cs fs :
  (forall c f, h (with_cell name c f) = h f) ->
  List.length cs = List.length fs ->
  map h (with_cells name cs fs) = map h fs.
Proof.
  intros Hh. revert fs.
  induction cs as [| c cs IH]; intros [| f fs]; simpl; try discriminate;
    [reflexivity |].
  intros Hl. rewrite Hh, IH; [reflexivity | lia].
Qed.

Lemma traverse_Some_Forall {A B : Type} (f : A -> option B) l bs :
  traverse f l = Some bs -> Forall (fun a => f a <> None) l.
Proof.
  revert bs. induction l as [| a l IH]; simpl; intros bs H; [constructor |].
  destruct (f a) eqn:Ea; [| discriminate].
  destruct (traverse f l) as [bs' |]; [| discriminate].
  constructor; [congruence | eapply IH; reflexivity].
Qed.



(** ** The stages, one by one *)

Lemma geo_to_h3_spec res g w :
  geo_to_h3 res g w =
  (match traverse (h3_index res) (features g) with
   | Some cs =>
       Ok {| dtypes := (h3_column res, cells_dtype cs)
                       :: drop_key (h3_column res) (dtypes g);
             features := with_cells (h3_column res) cs (features g) |}
   | None => Err CellAssignError
   end, logged w [GeoToH3 res]).
Proof.
  unfold geo_to_h3, bind, lift, log. reflexivity.
Qed.

Lemma groupby_spec by_ col g w :
  mem by_ (columns g) = true -> mem col (columns g) = true ->
  groupby_agg_mean by_ col g w =
  (match observations (column_dtype col g) (map (cell col) (features g)) with
   | Some xs =>
       Ok {| index_dtype := column_dtype by_ g;
             mean_dtype := column_dtype col g;
             records :=
               map (fun r => (fst r, of_mean (column_dtype col g) (snd r)))
                 (group_mean (keyed (map (cell by_) (features g)) xs)) |}
   | None =>
       if has_group (map (cell by_) (features g)) then Err AggregationError
       else Ok {| index_dtype := column_dtype by_ g;
                  mean_dtype := column_dtype col g;
                  records := [] |}
   end, logged w [GroupbyMean]).

Proof.
  intros Hb Hc. unfold groupby_agg_mean, getitem, bind, lift, log.
  rewrite Hb, Hc. reflexivity.
Qed.

Lemma boundary_spec by_ col means w :
  h3_to_geo_boundary by_ col means w =
  (match traverse (hexagon by_ col) (records means) with
   | Some fs => Ok {| dtypes := [(by_, index_dtype means);
                                 (col, mean_dtype means)];
                      features := fs |}
   | None => Err BoundaryError
   end, logged w [H3ToGeoBoundary]).
Proof.
  unfold h3_to_geo_boundary, bind, lift, log. reflexivity.
Qed.

Lemma columns_In name g :
  In name (columns g) <-> In name (map fst (dtypes g)) \/ name = "geometry".
Proof.
  unfold columns. rewrite in_app_iff. simpl. intuition.
Qed.

Lemma score_normalizer_columns sf g w g2 w' :
  mem sf (columns g) = true ->
  score_normalizer sf g w = (Ok g2, w') ->
  mem sf (columns g2) = true.
Proof.
  intros Hm H. rewrite (score_normalizer_spec sf g w Hm) in H.
  rewrite convert_score_spec in H by exact Hm.
  destruct (eq_StringDtype_class _).
  - destruct (traverse numeric_value _); [| discriminate].
    injection H as <- _. apply mem_In. apply columns_In. unfold setitem. simpl.
    destruct (String.eqb sf "geometry") eqn:E.
    + right. apply String.eqb_eq. exact E.
    + left. apply keys_assign. auto.
  - injection H as <- _. exact Hm.
Qed.

Lemma geo_to_h3_columns res d (dts : list (string * dtype)) fs fs' name :
  In name (columns {| dtypes := dts; features := fs |}) ->
  In name (columns {| dtypes := (h3_column res, d)
                                :: drop_key (h3_column res) dts;
                      features := fs' |}).
Proof.
  rewrite !columns_In. simpl. intros [Hin | Hg]; [| auto].
  destruct (string_dec name (h3_column res)) as [-> | Hne]; [auto |].
  left. right. apply keys_drop_key. auto.
Qed.

Lemma h3_column_dtype res d dts fs :
  column_dtype (h3_column res)
    {| dtypes := (h3_column res, d) :: dts; features := fs |} = d.
Proof.
  unfold column_dtype. simpl dtypes.
  pose proof (h3_column_not_geometry res) as Hb.
  apply String.eqb_neq in Hb. rewrite Hb. simpl assoc.
  rewrite String.eqb_refl. reflexivity.
Qed.

(** The result of the stages, stage by stage. *)
Lemma hexagons_steps sf res g :
  mem sf (columns g) = true ->
  hexagons sf res g =
  match fst (score_normalizer sf g blank) with
  | Err e => Err e
  | Ok g2 =>
      match traverse (h3_index res) (features g2) with
      | None => Err CellAssignError
      | Some cs =>
          let g3 := {| dtypes := (h3_column res, cells_dtype cs)
                                 :: drop_key (h3_column res) (dtypes g2);
                       features := with_cells (h3_column res) cs (features g2) |}
          in
          match observations (column_dtype sf g3)
                  (map (cell sf) (features g3)) with
          | Some xs =>
              match traverse (hexagon (h3_column res) sf)
                      (map (fun r => (fst r,
                                      of_mean (column_dtype sf g3) (snd r)))
                         (group_mean
                            (keyed (map (cell (h3_column res)) (features g3))
                               xs))) with
              | Some hs =>
                  Ok {| dtypes := [(h3_column res, cells_dtype cs);
                                   (sf, column_dtype sf g3)];
                        features := hs |}
              | None => Err BoundaryError
              end
          | None =>
              match cs with
              | [] => Ok {| dtypes := [(h3_column res, cells_dtype cs);
                                       (sf, column_dtype sf g3)];
                            features := [] |}
              | _ :: _ => Err AggregationError
              end
          end
      end
  end.
Proof.
  intros Hm. unfold hexagons, hexagons_of. unfold bind at 1.
  destruct (score_normalizer sf g blank) as [[g2 | e] w1] eqn:E;
    [| reflexivity].
  pose proof (score_normalizer_columns sf g blank g2 w1 Hm E) as Hm2.
  cbn [fst]. unfold bind at 1. rewrite geo_to_h3_spec.
  destruct (traverse (h3_index res) (features g2)) as [cs |] eqn:Ecs;
    [| reflexivity].
  pose proof (traverse_length _ _ _ Ecs) as Hlen.
  cbv zeta.
  set (g3 := {| dtypes := (h3_column res, cells_dtype cs)
                          :: drop_key (h3_column res) (dtypes g2);
                features := with_cells (h3_column res) cs (features g2) |}).
  assert (Hb : mem (h3_column res) (columns g3) = true).
  { apply mem_In. apply columns_In. simpl. auto. }
  assert (Hc : mem sf (columns g3) = true).
  { apply mem_In. apply mem_In in Hm2. destruct g2 as [dts fs].
    apply (geo_to_h3_columns res _ dts fs). exact Hm2. }
  assert (Hd : column_dtype (h3_column res) g3 = cells_dtype cs)
    by apply h3_column_dtype.
  assert (Hkeys : has_group (map (cell (h3_column res)) (features g3)) =
                  match cs with [] => false | _ :: _ => true end).
  { unfold g3. simpl features.
    rewrite with_cells_same; [| apply h3_column_not_geometry | exact Hlen].
    destruct cs; reflexivity. }
  unfold bind. rewrite (groupby_spec (h3_column res) sf g3 _ Hb Hc).
  rewrite Hkeys, Hd.
  destruct (observations (column_dtype sf g3) (map (cell sf) (features g3)))
    as [xs |].
  - rewrite boundary_spec. cbn [records index_dtype mean_dtype].
    destruct (traverse (hexagon (h3_column res) sf) _); reflexivity.
  - destruct cs; [| reflexivity].
    rewrite boundary_spec. reflexivity.
Qed.

Lemma score_normalizer_error sf g w e w' :
  mem sf (columns g) = true ->
  score_normalizer sf g w = (Err e, w') ->
  e = ScoreCoercionError ToNumericError /\
  column_dtype sf g = Object /\
  exists f, In f (scored sf (features g)) /\ numeric_value (cell sf f) = None.
Proof.
  intros Hm H. rewrite (score_normalizer_spec sf g w Hm) in H.
  rewrite convert_score_spec in H by exact Hm.
  change (column_dtype sf {| dtypes := dtypes g;
                             features := scored sf (features g) |})
    with (column_dtype sf g) in H.
  destruct (eq_StringDtype_class (column_dtype sf g)) eqn:Eg; [| discriminate].
  apply guard_object in Eg. simpl features in H.
  destruct (traverse numeric_value (map (cell sf) (scored sf (features g))))
    eqn:Et; [discriminate |].
  injection H as <- _. split; [reflexivity |]. split; [exact Eg |].
  apply traverse_None. exact Et.
Qed.

(** ** The Aggregator, lines 99-101 *)

Lemma as_float_number v : is_float v = true -> as_float v = Some (number_of v).
Proof.
  unfold number_of. destruct v; simpl; try discriminate; reflexivity.
Qed.




Lemma of_mean_numeric m : of_mean Numeric m = mean_value m.
Proof.
  destruct m; reflexivity.
Qed.

(** ** C1 *)


(** ** The Score Normalizer on text and on numbers, lines 85-93 *)

Lemma object_not_geometry sf g : column_dtype sf g = Object -> sf <> "geometry".
Proof.
  unfold column_dtype. intros H ->. simpl in H. discriminate.
Qed.

Lemma numeric_not_geometry sf g : column_dtype sf g = Numeric -> sf <> "geometry".
Proof.
  unfold column_dtype. intros H ->. simpl in H. discriminate.
Qed.

Lemma numeric_value_numeric v v' :
  numeric_value v = Some v' -> is_numeric v' = true.
Proof.
  destruct v as [| n | x | s | ns | sh]; simpl; intros H; try discriminate;
    try (injection H as <-; reflexivity).
  destruct (String.eqb s ""); [injection H as <-; reflexivity |].
  destruct (parse_number s) as [[n | x] |]; try discriminate;
    injection H as <-; reflexivity.
Qed.

Lemma to_numeric_numeric l vs :
  traverse numeric_value l = Some vs ->
  Forall (fun v => is_numeric v = true) vs.
Proof.
  revert vs. induction l as [| v l IH]; simpl; intros vs H.
  - injection H as <-. constructor.
  - destruct (numeric_value v) as [v' |] eqn:Ev; [| discriminate].
    destruct (traverse numeric_value l) as [vs' |]; [| discriminate].
    injection H as <-.
    constructor; [eapply numeric_value_numeric; eassumption | auto].
Qed.

Lemma to_float64_numeric v : is_numeric (to_float64 v) = is_numeric v.
Proof.
  destruct v; reflexivity.
Qed.

Lemma common_type_numeric vs :
  Forall (fun v => is_numeric v = true) vs ->
  Forall (fun v => is_numeric v = true) (common_type vs).
Proof.
  intros H. unfold common_type. destruct (forallb is_integer vs); [exact H |].
  apply Forall_map. eapply Forall_impl; [| exact H].
  intros v Hv. rewrite to_float64_numeric. exact Hv.
Qed.

Lemma common_type_length vs : List.length (common_type vs) = List.length vs.
Proof.
  unfold common_type. destruct (forallb is_integer vs); [reflexivity |].
  apply length_map.
Qed.


(** What the Score Normalizer hands on, when it succeeds on a frame
    that has the score column: the rows with a score, their geometry
    and their other columns untouched; the scores of a column of
    objects are what [pd.to_numeric] has made of them. *)
Lemma score_normalizer_ok sf g w g2 w' :
  mem sf (columns g) = true ->
  score_normalizer sf g w = (Ok g2, w') ->
  map geometry (features g2) = map geometry (scored sf (features g)) /\
  (forall name, name <> sf ->
     map (cell name) (features g2) = map (cell name) (scored sf (features g)))
  /\
  (column_dtype sf g = Object ->
   column_dtype sf g2 = Numeric /\
   exists vs,
     traverse numeric_value (map (cell sf) (scored sf (features g))) = Some vs
     /\ map (cell sf) (features g2) = common_type vs) /\
  (column_dtype sf g <> Object ->
   g2 = {| dtypes := dtypes g; features := scored sf (features g) |}).
Proof.
  intros Hm H. rewrite (score_normalizer_spec sf g w Hm) in H.
  rewrite convert_score_spec in H by exact Hm.
  change (column_dtype sf {| dtypes := dtypes g;
                             features := scored sf (features g) |})
    with (column_dtype sf g) in H.
  destruct (eq_StringDtype_class (column_dtype sf g)) eqn:Eg.
  - apply guard_object in Eg. pose proof (object_not_geometry sf g Eg) as Hng.
    simpl features in H.
    destruct (traverse numeric_value (map (cell sf) (scored sf (features g))))
      as [vs |] eqn:Et; [| discriminate].
    injection H as <- _. unfold setitem. simpl features.
    assert (Hlen : List.length (common_type vs)
                   = List.length (scored sf (features g))).
    { rewrite common_type_length, (traverse_length _ _ _ Et).
      apply length_map. }
    split; [| split; [| split]].
    + apply set_cells_other. intros v f. apply geometry_set_cell. exact Hng.
    + intros name Hne. apply set_cells_other. intros v f.
      apply cell_set_cell_other. exact Hne.
    + intros _. split.
      * unfold column_dtype. simpl dtypes.
        pose proof Hng as Hb. apply String.eqb_neq in Hb. rewrite Hb.
        rewrite assoc_assign_same. reflexivity.
      * exists vs. split; [reflexivity |].
        apply set_cells_same; assumption.
    + intros Hne. contradiction.
  - injection H as <- _. simpl features.
    split; [reflexivity |]. split; [reflexivity |].
    split; [| reflexivity].
    intros Hd. rewrite Hd in Eg. discriminate.
Qed.

(** X6.  When the score column is held under the object dtype, or
    under a numeric dtype with numbers and missing values in it, and
    the Score Normalizer succeeds, the frame it hands on has a numeric
    score column in which every score is an integer or a float.  A
    float may be [NaN] when the column was held as objects (an empty
    text becomes one); when the column was numeric, no score is [NaN].
    The rows are the rows of the input that have a score, with the
    same geometry and the same values in every other column. *)
Theorem normalized_scores_are_numeric sf g w g2 w' :
  In sf (columns g) ->
  column_dtype sf g = Object \/
  (column_dtype sf g = Numeric /\
   Forall (fun f => is_float (cell sf f) = true) (features g)) ->
  score_normalizer sf g w = (Ok g2, w') ->
  column_dtype sf g2 = Numeric /\
  Forall (fun f => is_numeric (cell sf f) = true) (features g2) /\
  (column_dtype sf g = Numeric ->
   Forall (fun f => is_number (cell sf f) = true) (features g2)) /\
  map geometry (features g2) = map geometry (scored sf (features g)) /\
  (forall name, name <> sf ->
     map (cell name) (features g2) = map (cell name) (scored sf (features g))).
Proof.
  intros Hcol Hty H. apply mem_In in Hcol.
  destruct (score_normalizer_ok sf g w g2 w' Hcol H) as [Hg [Ho [Hobj Hnum]]].
  destruct Hty as [Hd | [Hd Hfl]].
  - destruct (Hobj Hd) as [Hd2 [vs [Hvs Hcells]]].
    split; [exact Hd2 |]. split; [| split; [| auto]].
    + rewrite <- Forall_map with (f := cell sf)
                                 (P := fun v => is_numeric v = true).
      rewrite Hcells. apply common_type_numeric.
      eapply to_numeric_numeric. exact Hvs.
    + intros Hn. rewrite Hd in Hn. discriminate.
  - assert (Hne : column_dtype sf g <> Object) by (rewrite Hd; discriminate).
    specialize (Hnum Hne). subst g2. simpl features.
    assert (Hall : Forall (fun f => is_number (cell sf f) = true)
                     (scored sf (features g))).
    { apply Forall_forall. intros f Hin. apply scored_In in Hin.
      destruct Hin as [Hin Hna]. rewrite Forall_forall in Hfl.
      specialize (Hfl f Hin).
      destruct (cell sf f); simpl in *; try congruence.
      rewrite Hna. reflexivity. }
    split; [exact Hd |]. split; [| split; [auto | split; [reflexivity | auto]]].
    eapply Forall_impl; [| exact Hall].
    intros f Hf. cbv beta in Hf. destruct (cell sf f); simpl in *; congruence.
Qed.

(** ** C10 *)

Lemma stage_calls_object sf res g :
  mem sf (columns g) = true ->
  column_dtype sf g = Object ->
  In ToNumeric (stage_calls sf res g).
Proof.
  intros Hm Hd. unfold stage_calls, hexagons_of. unfold bind at 1.
  destruct (object_scores_coerced sf g blank Hm Hd) as [Hw _].
  destruct (score_normalizer sf g blank) as [[g2 | e2] w2]; simpl in Hw;
    subst w2; [| simpl; auto].
  unfold bind.
  destruct (geo_to_h3 res g2 _) as [[g3 | e3] w3] eqn:E3;
    pose proof (geo_to_h3_world _ _ _ _ _ E3) as Hw3; subst w3;
    [| simpl; auto].
  destruct (groupby_agg_mean (h3_column res) sf g3 _) as [[g4 | e4] w4] eqn:E4;
    pose proof (groupby_world _ _ _ _ _ _ E4) as Hw4; subst w4;
    [| simpl; auto].
  destruct (h3_to_geo_boundary (h3_column res) sf g4 _) as [r5 w5] eqn:E5.
  pose proof (boundary_world _ _ _ _ _ _ E5) as Hw5. subst w5. simpl. auto.
Qed.

Lemma hexagons_coercion sf res g e :
  mem sf (columns g) = true ->
  (hexagons sf res g = Err (ScoreCoercionError e) <->
   fst (score_normalizer sf g blank) = Err (ScoreCoercionError e)).
Proof.
  intros Hm. rewrite (hexagons_steps sf res g Hm).
  destruct (fst (score_normalizer sf g blank)) as [g2 | e2]; [| reflexivity].
  destruct (traverse (h3_index res) (features g2)) as [cs |];
    [| split; discriminate].
  cbv zeta. destruct (observations _ _); [| destruct cs; split; discriminate].
  destruct (traverse (hexagon _ _) _); split; discriminate.
Qed.

(** C10, amended.  For a validated input whose score column is numeric
    the guard of the conversion does not hold and the conversion is not
    attempted: the Score Normalizer only drops the rows without a score
    and leaves every other score as it is, [pd.to_numeric] is never
    called and the run does not fail with ScoreCoercionError.  For a
    validated input whose score column is held under the object dtype
    the guard holds and the conversion is attempted: [pd.to_numeric] is
    called, and the run fails with ScoreCoercionError, which carries
    the error of [pd.to_numeric], exactly when [pd.to_numeric] does not
    accept one of the scores that are left.  An empty text is accepted
    and becomes [NaN].  When all are accepted, the score column is
    numeric afterwards and holds what [pd.to_numeric] has made of the
    scores. *)
Theorem coercion_only_for_object_dtype a fs g :
  fs (arg_input_file a) = Some (Dataset g) ->
  has_point g = true ->
  In (arg_score_field a) (columns g) ->
  (column_dtype (arg_score_field a) g = Numeric ->
   eq_StringDtype_class (column_dtype (arg_score_field a) g) = false /\
   (forall w,
      score_normalizer (arg_score_field a) g w =
      (Ok {| dtypes := dtypes g;
             features := scored (arg_score_field a) (features g) |}, w)) /\
   (forall e, fst (run a fs) <> Err (ScoreCoercionError e)) /\
   ~ In ToNumeric (calls (snd (run a fs)))) /\
  (column_dtype (arg_score_field a) g = Object ->
   eq_StringDtype_class (column_dtype (arg_score_field a) g) = true /\
   In ToNumeric (calls (snd (run a fs))) /\
   (forall e,
      fst (run a fs) = Err (ScoreCoercionError e) <->
      e = ToNumericError /\
      exists f, In f (scored (arg_score_field a) (features g)) /\
                numeric_value (cell (arg_score_field a) f) = None) /\
   numeric_value (Str "") = Some (Float nan) /\
   (forall w g2 w',
      score_normalizer (arg_score_field a) g w = (Ok g2, w') ->
      column_dtype (arg_score_field a) g2 = Numeric /\
      exists vs,
        traverse numeric_value
          (map (cell (arg_score_field a))
             (scored (arg_score_field a) (features g))) = Some vs /\
        map (cell (arg_score_field a)) (features g2) = common_type vs)).
Proof.
  intros Hg Hp Hcol. split.
  - intros Hd.
    assert (Hne : column_dtype (arg_score_field a) g <> Object)
      by (rewrite Hd; discriminate).
    destruct (no_coercion_unless_object a fs g Hg Hcol Hne)
      as [_ [Hn [He Hc]]].
    split; [rewrite Hd; reflexivity |].
    split; [exact Hn |]. split; [exact He | exact Hc].
  - intros Hd. apply mem_In in Hcol.
    split; [rewrite Hd; reflexivity |].
    pose proof (run_spec a fs) as Hrun. cbv zeta in Hrun.
    rewrite Hg, Hp, Hcol in Hrun.
    pose proof (stage_calls_object (arg_score_field a) (resolution_of a) g
                  Hcol Hd) as Hcalls.
    pose proof (fun e => hexagons_coercion (arg_score_field a) (resolution_of a)
                           g e Hcol) as Hco.
    split; [| split; [| split]].
    + rewrite Hrun. destruct (hexagons _ _ g) as [hex | e'].
      * destruct (driver_writes _ hex fs); cbn [snd calls];
          rewrite !in_app_iff; auto.
      * cbn [snd calls]. rewrite !in_app_iff. auto.
    + intros e.
      assert (Hrun' : fst (run a fs) = Err (ScoreCoercionError e) <->
                      hexagons (arg_score_field a) (resolution_of a) g =
                      Err (ScoreCoercionError e)).
      { rewrite Hrun. destruct (hexagons _ _ g) as [hex | e'].
        - destruct (driver_writes _ hex fs); split; discriminate.
        - cbn [fst]. split; intros H; injection H as ->; reflexivity. }
      rewrite Hrun', Hco. clear Hrun' Hco Hrun.
      destruct (object_scores_coerced (arg_score_field a) g blank Hcol Hd)
        as [_ Hiff].
      destruct (score_normalizer (arg_score_field a) g blank)
        as [[g2 | e2] w2] eqn:E; cbn [fst] in *.
      * split; [discriminate |]. intros [_ Hex]. apply Hiff in Hex.
        destruct Hex as [e' He']. discriminate.
      * apply score_normalizer_error in E; [| exact Hcol].
        destruct E as [-> [_ Hex]]. split.
        -- intros H. injection H as <-. auto.
        -- intros [-> _]. reflexivity.
    + reflexivity.
    + intros w g2 w' H.
      destruct (score_normalizer_ok _ _ _ _ _ Hcol H) as [_ [_ [Hobj _]]].
      exact (Hobj Hd).
Qed.
(** ** The Cell Assigner, line 96 *)

Lemma h3_index_point res f : h3_index res f <> None -> is_point f = true.
Proof.
  unfold h3_index, is_point.
  destruct (geometry f) as [[x y | pts | pts | ring] |]; congruence.
Qed.

(** X7.  When the Cell Assigner succeeds, every row of its input is a
    point with a cell.  The frame it hands on has the same rows in the
    same order: the column "h3_" followed by the two-digit resolution
    holds the cell of each row, and the geometry and the values of
    every other column are as before.  Every column of the input is
    still a column. *)
Theorem cell_assigner_adds_one_column res g w g3 w' :
  geo_to_h3 res g w = (Ok g3, w') ->
  exists cs,
    traverse (h3_index res) (features g) = Some cs /\
    Forall (fun f => is_point f = true) (features g) /\
    map (cell (h3_column res)) (features g3) = map Str cs /\
    map geometry (features g3) = map geometry (features g) /\
    (forall name, name <> h3_column res ->
       map (cell name) (features g3) = map (cell name) (features g)) /\
    In (h3_column res) (columns g3) /\
    (forall name, In name (columns g) -> In name (columns g3)).
Proof.
  rewrite geo_to_h3_spec. intros H.
  destruct (traverse (h3_index res) (features g)) as [cs |] eqn:E;
    [| discriminate].
  injection H as <- _. exists cs. simpl features.
  pose proof (traverse_length _ _ _ E) as Hlen.
  split; [reflexivity |]. split.
  { eapply Forall_impl; [| eapply traverse_Some_Forall; exact E].
    intros f. apply h3_index_point. }
  split; [apply with_cells_same; [apply h3_column_not_geometry | exact Hlen] |].
  split; [apply with_cells_other; [reflexivity | exact Hlen] |].
  split.
  { intros name Hne. apply with_cells_other; [| exact Hlen].
    intros c f. apply cell_with_cell_other. exact Hne. }
  split.
  { apply columns_In. simpl. auto. }
  intros name Hin. destruct g as [dts fs].
  apply (geo_to_h3_columns res _ dts fs). exact Hin.
Qed.

Lemma traverse_None_iff {A B : Type} (f : A -> option B) l :
  traverse f l = None <-> exists a, In a l /\ f a = None.
Proof.
  induction l as [| a l IH]; simpl.
  - split; [discriminate | intros [a [[] _]]].
  - destruct (f a) eqn:Ea.
    + destruct (traverse f l) eqn:Et.
      * split; [discriminate |].
        intros [a' [[<- | Hin] Hn]]; [congruence |].
        assert (H0 : @Some (list B) l0 = None) by (apply IH; exists a'; auto).
        discriminate.
      * split; [| reflexivity]. intros _.
        destruct (proj1 IH eq_refl) as [a' [Hin Hn]]. exists a'. auto.
    + split; [| reflexivity]. intros _. exists a. auto.
Qed.

Lemma h3_index_geometry res f f' :
  geometry f = geometry f' -> h3_index res f = h3_index res f'.
Proof.
  unfold h3_index. intros ->. reflexivity.
Qed.

Lemma traverse_h3_index_geometry res fs fs' :
  map geometry fs = map geometry fs' ->
  traverse (h3_index res) fs = traverse (h3_index res) fs'.
Proof.
  revert fs'. induction fs as [| f fs IH]; intros [| f' fs']; simpl;
    try discriminate; [reflexivity |].
  intros H. injection H as Hf Hfs.
  rewrite (h3_index_geometry res f f' Hf), (IH fs' Hfs). reflexivity.
Qed.

(** X8.  For a layer that passes the checks and whose scores, if they
    are text under the object dtype, can all be read as numbers, the
    run fails in the Cell Assigner exactly when some row that has a
    score has no cell.  A row with a score whose geometry is not a
    point is such a row: a layer of points and other geometries passes
    the check for points and fails here, unless the other geometries
    have no score.  The failure leaves every file as it was. *)
Theorem cell_assign_error_exactly a fs g :
  fs (arg_input_file a) = Some (Dataset g) ->
  has_point g = true ->
  In (arg_score_field a) (columns g) ->
  (column_dtype (arg_score_field a) g = Object ->
   forall f, In f (scored (arg_score_field a) (features g)) ->
             numeric_value (cell (arg_score_field a) f) <> None) ->
  (fst (run a fs) = Err CellAssignError <->
   exists f, In f (scored (arg_score_field a) (features g)) /\
             h3_index (resolution_of a) f = None) /\
  ((exists f, In f (scored (arg_score_field a) (features g)) /\
              is_point f = false) ->
   fst (run a fs) = Err CellAssignError) /\
  (fst (run a fs) = Err CellAssignError -> files (snd (run a fs)) = fs).
Proof.
  intros Hg Hp Hcol Hparse. apply mem_In in Hcol.
  pose proof (run_spec a fs) as Hrun. cbv zeta in Hrun.
  rewrite Hg, Hp, Hcol in Hrun. rewrite Hrun. clear Hrun.
  pose proof (hexagons_steps (arg_score_field a) (resolution_of a) g Hcol)
    as Hsteps.
  destruct (score_normalizer (arg_score_field a) g blank)
    as [[g2 | e2] w1] eqn:E; cbn [fst] in Hsteps.
  2: { apply score_normalizer_error in E; [| exact Hcol].
       destruct E as [_ [Hd [f [Hin Hn]]]]. exfalso.
       exact (Hparse Hd f Hin Hn). }
  destruct (score_normalizer_ok _ _ _ _ _ Hcol E) as [Hgeo _].
  rewrite (traverse_h3_index_geometry (resolution_of a) _ _ Hgeo) in Hsteps.
  match goal with
  | |- (fst ?t = _ <-> _) /\ _ =>
      assert (Hiff : fst t = Err CellAssignError <->
                exists f, In f (scored (arg_score_field a) (features g)) /\
                          h3_index (resolution_of a) f = None)
  end.
  { clear Hparse. rewrite <- traverse_None_iff.
    destruct (traverse (h3_index (resolution_of a))
                (scored (arg_score_field a) (features g))) as [cs |].
    - split; [| discriminate]. intros H. exfalso. revert H.
      destruct (hexagons _ _ g) as [hex | e].
      + destruct (driver_writes _ hex fs); discriminate.
      + simpl. intros H. injection H as ->. revert Hsteps. cbv zeta.
        destruct (observations _ _); [| destruct cs; discriminate].
        destruct (traverse (hexagon _ _) _); discriminate.
    - rewrite Hsteps. simpl. split; reflexivity. }
  split; [exact Hiff |]. split.
  - intros [f [Hin Hpt]]. apply Hiff. exists f. split; [exact Hin |].
    destruct (h3_index (resolution_of a) f) eqn:Eh; [| reflexivity].
    assert (Hne : h3_index (resolution_of a) f <> None) by congruence.
    apply h3_index_point in Hne. congruence.
  - destruct (hexagons _ _ g) as [hex | e].
    + destruct (driver_writes _ hex fs); discriminate.
    + reflexivity.
Qed.

(** ** From the layer to the hexagons, lines 85-104 *)

Lemma keyed_Str cs xs : keyed (map Str cs) xs = combine cs xs.
Proof.
  revert xs. induction cs as [| c cs IH]; intros [| x xs]; simpl;
    try reflexivity.
  rewrite IH. reflexivity.
Qed.

Lemma score_column_dtype sf res d g fs :
  sf <> h3_column res ->
  column_dtype sf {| dtypes := (h3_column res, d)
                               :: drop_key (h3_column res) (dtypes g);
                     features := fs |} = column_dtype sf g.
Proof.
  intros Hne. unfold column_dtype. simpl dtypes.
  destruct (String.eqb sf "geometry"); [reflexivity |].
  simpl assoc. pose proof Hne as Hb. apply String.eqb_neq in Hb. rewrite Hb.
  rewrite assoc_drop_key by exact Hne. reflexivity.
Qed.

(** The Cell Assigner, the Aggregator and the Boundary Materializer on
    a frame with a numeric score column. *)
Lemma numeric_stages sf res g2 (cs : list string) vs :
  sf <> h3_column res ->
  column_dtype sf g2 = Numeric ->
  List.length cs = List.length (features g2) ->
  map (cell sf) (features g2) = vs ->
  Forall (fun v => is_float v = true) vs ->
  let g3 := {| dtypes := (h3_column res, cells_dtype cs)
                         :: drop_key (h3_column res) (dtypes g2);
               features := with_cells (h3_column res) cs (features g2) |} in
  match observations (column_dtype sf g3) (map (cell sf) (features g3)) with
  | Some xs =>
      match traverse (hexagon (h3_column res) sf)
              (map (fun r => (fst r, of_mean (column_dtype sf g3) (snd r)))
                 (group_mean
                    (keyed (map (cell (h3_column res)) (features g3)) xs)))
      with
      | Some hs =>
          Ok {| dtypes := [(h3_column res, cells_dtype cs);
                           (sf, column_dtype sf g3)];
                features := hs |}
      | None => Err BoundaryError
      end
  | None =>
      match cs with
      | [] => Ok {| dtypes := [(h3_column res, cells_dtype cs);
                               (sf, column_dtype sf g3)];
                    features := [] |}
      | _ :: _ => Err AggregationError
      end
  end = averaged sf res cs (map number_of vs).
Proof.
  intros Hne Hd Hlen Hvs Hfl g3.
  assert (Hd3 : column_dtype sf g3 = Numeric).
  { unfold g3. rewrite score_column_dtype by exact Hne. exact Hd. }
  rewrite Hd3. cbn [observations]. unfold g3. simpl features.
  rewrite (with_cells_other (cell sf) (h3_column res) cs (features g2));
    [| intros c f; apply cell_with_cell_other; exact Hne | exact Hlen].
  rewrite Hvs.
  assert (Hfloat : traverse as_float vs = Some (map number_of vs)).
  { clear Hvs. induction Hfl as [| v vs' Hv _ IH]; simpl; [reflexivity |].
    rewrite IH, (as_float_number _ Hv). reflexivity. }
  rewrite Hfloat.
  rewrite with_cells_same; [| apply h3_column_not_geometry | exact Hlen].
  rewrite keyed_Str. unfold averaged.
  rewrite (map_ext (fun r : string * option float =>
                      (fst r, of_mean Numeric (snd r)))
                   (fun r => (fst r, mean_value (snd r))));
    [| intros r; rewrite of_mean_numeric; reflexivity].
  destruct (traverse (hexagon (h3_column res) sf) _); reflexivity.
Qed.



(** ** The layer that is written, lines 99-107 *)







(** A run that ends well has written the hexagons of a layer that
    passed the checks. *)
Lemma run_ok_written a fs w' :
  run a fs = (Ok tt, w') ->
  exists g hex,
    fs (arg_input_file a) = Some (Dataset g) /\
    mem (arg_score_field a) (columns g) = true /\
    hexagons (arg_score_field a) (resolution_of a) g = Ok hex /\
    files w' = write (arg_output_file a) hex fs.
Proof.
  pose proof (run_spec a fs) as Hrun. cbv zeta in Hrun. rewrite Hrun.
  clear Hrun.
  destruct (fs (arg_input_file a)) as [[| t | g] |]; try discriminate.
  destruct (has_point g); [| discriminate].
  destruct (mem (arg_score_field a) (columns g)) eqn:Hm; [| discriminate].
  destruct (hexagons _ _ g) as [hex | e] eqn:E; [| discriminate].
  destruct (driver_writes _ hex fs); [| discriminate].
  intros H. injection H as <-. exists g, hex. auto.
Qed.


(** ** The order of the calls, lines 58-107 *)

Lemma score_normalizer_world sf g w r w' :
  mem sf (columns g) = true ->
  score_normalizer sf g w = (r, w') ->
  exists converted : bool,
    w' = logged w (if converted then [ToNumeric] else []).
Proof.
  intros Hm H. rewrite (score_normalizer_spec sf g w Hm) in H.
  rewrite convert_score_spec in H by exact Hm.
  destruct (eq_StringDtype_class _).
  - exists true. destruct (traverse numeric_value _); injection H as _ <-;
      reflexivity.
  - exists false. injection H as _ <-. rewrite logged_nil. reflexivity.
Qed.

Lemma stage_calls_shape sf res g :
  mem sf (columns g) = true ->
  exists (converted : bool) k,
    stage_calls sf res g =
    (if converted then [ToNumeric] else [])
    ++ firstn k [GeoToH3 res; GroupbyMean; H3ToGeoBoundary] /\
    (forall hex, hexagons sf res g = Ok hex -> k = 3%nat).
Proof.
  intros Hm. unfold stage_calls, hexagons, hexagons_of. unfold bind.
  destruct (score_normalizer sf g blank) as [[g2 | e2] w1] eqn:E1;
    destruct (score_normalizer_world sf g blank _ _ Hm E1) as [conv Hw1];
    exists conv.
  2: { exists 0%nat. subst w1. destruct conv;
         (split; [reflexivity | discriminate]). }
  destruct (geo_to_h3 res g2 w1) as [[g3 | e3] w3] eqn:E3;
    pose proof (geo_to_h3_world _ _ _ _ _ E3) as Hw3.
  2: { exists 1%nat. subst w3 w1. destruct conv;
         (split; [reflexivity | discriminate]). }
  destruct (groupby_agg_mean (h3_column res) sf g3 w3)
    as [[g4 | e4] w4] eqn:E4;
    pose proof (groupby_world _ _ _ _ _ _ E4) as Hw4.
  2: { exists 2%nat. subst w4 w3 w1. destruct conv;
         (split; [reflexivity | discriminate]). }
  destruct (h3_to_geo_boundary (h3_column res) sf g4 w4)
    as [r5 w5] eqn:E5;
    pose proof (boundary_world _ _ _ _ _ _ E5) as Hw5.
  exists 3%nat. subst w5 w4 w3 w1. destruct conv; split; reflexivity.
Qed.

(** X13.  The library calls of a run are made in one fixed order: four
    reads of the input, the conversion of the scores if the column
    calls for it, the Cell Assigner at the resolution given, the
    Aggregator, the Boundary Materializer and the Writer at the output
    path.  A run makes these calls up to the one that fails, each once,
    and a run that ends well makes them all. *)
Theorem calls_in_fixed_order a fs :
  exists converted hex rest,
    calls (snd (run a fs)) ++ rest = all_calls a converted hex /\
    (fst (run a fs) = Ok tt -> rest = []).
Proof.
  pose proof (run_spec a fs) as Hrun. cbv zeta in Hrun. rewrite Hrun.
  clear Hrun. unfold all_calls.
  set (none := {| dtypes := []; features := [] |}).
  destruct (fs (arg_input_file a)) as [[| t | g] |].
  - exists false, none. eexists. simpl. split; [reflexivity | discriminate].
  - exists false, none. eexists. simpl. split; [reflexivity | discriminate].
  - destruct (has_point g).
    2: { exists false, none. eexists. simpl.
         split; [reflexivity | discriminate]. }
    destruct (mem (arg_score_field a) (columns g)) eqn:Hm.
    2: { exists false, none. eexists. simpl.
         split; [reflexivity | discriminate]. }
    destruct (stage_calls_shape _ (resolution_of a) g Hm)
      as [conv [k [Hs Hk]]].
    rewrite Hs. clear Hs.
    destruct (hexagons _ _ g) as [hex | e].
    + rewrite (Hk hex eq_refl). exists conv, hex, [].
      split; [| reflexivity].
      destruct conv, (driver_writes _ hex fs); reflexivity.
    + exists conv, none.
      exists (skipn k [GeoToH3 (resolution_of a); GroupbyMean; H3ToGeoBoundary]
              ++ [ToFile (arg_output_file a) none]).
      split; [| discriminate].
      destruct conv, k as [| [| [| [| k]]]]; reflexivity.
  - exists false, none. eexists. simpl. split; [reflexivity | discriminate].
Qed.

(** ** Running the command again *)

(** X14.  When the output path is not the input path, the command run
    again after a run that ended well makes the same hexagons: it ends
    well or fails in the Writer, and when it ends well every path
    holds what it held after the first run. *)
Theorem rerun_same_output a fs w1 :
  run a fs = (Ok tt, w1) ->
  arg_input_file a <> arg_output_file a ->
  (fst (run a (files w1)) = Ok tt \/ fst (run a (files w1)) = Err WriteError)
  /\
  (fst (run a (files w1)) = Ok tt ->
   forall p, files (snd (run a (files w1))) p = files w1 p).
Proof.
  intros H Hpath.
  destruct (run_ok_written a fs w1 H) as [g [hex [Hg [Hm [Hh Hf]]]]].
  assert (Hp : has_point g = true).
  { pose proof (run_spec a fs) as Hrun. cbv zeta in Hrun.
    rewrite Hg in Hrun. rewrite Hrun in H.
    destruct (has_point g); [reflexivity | discriminate]. }
  assert (Hg1 : files w1 (arg_input_file a) = Some (Dataset g)).
  { rewrite Hf. unfold write. apply String.eqb_neq in Hpath. rewrite Hpath.
    exact Hg. }
  pose proof (run_spec a (files w1)) as Hrun. cbv zeta in Hrun.
  rewrite Hg1, Hp, Hm, Hh in Hrun. rewrite Hrun. clear Hrun.
  destruct (driver_writes _ hex (files w1)); simpl.
  - split; [auto |]. intros _ p. rewrite Hf. unfold write.
    destruct (String.eqb p (arg_output_file a)); reflexivity.
  - split; [auto | discriminate].
Qed.


(** ** Scores under pandas' string dtype, lines 88-101 *)

Lemma traverse_Some_iff {A B : Type} (f : A -> option B) l :
  (exists bs, traverse f l = Some bs) <-> forall a, In a l -> f a <> None.
Proof.
  split.
  - intros [bs H] a Hin Hn.
    assert (Hex : traverse f l = None)
      by (apply traverse_None_iff; exists a; auto).
    congruence.
  - intros H. destruct (traverse f l) as [bs |] eqn:E; [exists bs; reflexivity |].
    apply traverse_None_iff in E. destruct E as [a [Hin Hn]].
    exfalso. exact (H a Hin Hn).
Qed.

(** X15.  For a layer that passes the checks, in which some row has a
    score and whose score column is held under pandas' string dtype
    (and is not the column of cells), the scores are not converted:
    the Score Normalizer hands on the rows that have a score as they
    are, and [pd.to_numeric] is not called.  The run fails in the Cell
    Assigner exactly when a row with a score has no cell, and in the
    Aggregator, which has no mean of text, exactly when every row with
    a score has a cell.  Either way the run does not end well and no
    file has changed. *)
Theorem string_dtype_never_aggregated a fs g :
  fs (arg_input_file a) = Some (Dataset g) ->
  has_point g = true ->
  In (arg_score_field a) (columns g) ->
  column_dtype (arg_score_field a) g = StringDtype ->
  arg_score_field a <> h3_column (resolution_of a) ->
  scored (arg_score_field a) (features g) <> [] ->
  (forall w,
     score_normalizer (arg_score_field a) g w =
     (Ok {| dtypes := dtypes g;
            features := scored (arg_score_field a) (features g) |}, w)) /\
  ~ In ToNumeric (calls (snd (run a fs))) /\
  (fst (run a fs) = Err CellAssignError <->
   exists f, In f (scored (arg_score_field a) (features g)) /\
             h3_index (resolution_of a) f = None) /\
  (fst (run a fs) = Err AggregationError <->
   forall f, In f (scored (arg_score_field a) (features g)) ->
             h3_index (resolution_of a) f <> None) /\
  fst (run a fs) <> Ok tt /\
  files (snd (run a fs)) = fs.
Proof.
  intros Hg Hp Hcol Hd Hne Hrows.
  assert (Hno : column_dtype (arg_score_field a) g <> Object)
    by (rewrite Hd; discriminate).
  destruct (no_coercion_unless_object a fs g Hg Hcol Hno) as [_ [Hn [_ Hc]]].
  split; [exact Hn |]. split; [exact Hc |]. clear Hc.
  apply mem_In in Hcol.
  pose proof (run_spec a fs) as Hrun. cbv zeta in Hrun.
  rewrite Hg, Hp, Hcol in Hrun. rewrite Hrun. clear Hrun.
  pose proof (hexagons_steps (arg_score_field a) (resolution_of a) g Hcol)
    as Hsteps.
  rewrite Hn in Hsteps.
  cbn [fst features dtypes] in Hsteps. cbv zeta in Hsteps.
  rewrite <- traverse_None_iff, <- traverse_Some_iff.
  destruct (traverse (h3_index (resolution_of a)) _) as [cs |] eqn:Ecs.
  - rewrite score_column_dtype in Hsteps by exact Hne.
    rewrite Hd in Hsteps. cbn [observations] in Hsteps.
    pose proof (traverse_length _ _ _ Ecs) as Hlen. clear Ecs.
    destruct cs as [| c cs].
    { exfalso. apply Hrows. apply length_zero_iff_nil. symmetry. exact Hlen. }
    rewrite Hsteps.
    cbn [fst snd files].
    split; [split; discriminate |].
    split; [split; [intros _; eexists; reflexivity | reflexivity] |].
    split; [discriminate | reflexivity].
  - rewrite Hsteps. cbn [fst snd files].
    split; [split; reflexivity |].
    split; [split; [discriminate | intros [bs H]; discriminate] |].
    split; [discriminate | reflexivity].
Qed.

(** ** Text scores under the object dtype, lines 85-107 *)

Lemma object_hexagons sf res g :
  mem sf (columns g) = true ->
  column_dtype sf g = Object ->
  sf <> h3_column res ->
  hexagons sf res g = converted_hexagons sf res g.
Proof.
  intros Hm Hd Hne.
  rewrite (hexagons_steps sf res g Hm). unfold converted_hexagons. cbv zeta.
  destruct (score_normalizer sf g blank) as [[g2 | e2] w2] eqn:E; cbn [fst].
  - destruct (score_normalizer_ok sf g blank g2 w2 Hm E)
      as [Hgeo [_ [Hobj _]]].
    destruct (Hobj Hd) as [Hd2 [vs [Hvs Hcells]]]. rewrite Hvs.
    rewrite (traverse_h3_index_geometry res _ _ Hgeo).
    destruct (traverse (h3_index res) (scored sf (features g))) as [cs |] eqn:Ec;
      [| reflexivity].
    assert (Hlen : List.length cs = List.length (features g2)).
    { rewrite (traverse_length _ _ _ Ec).
      rewrite <- (length_map geometry (features g2)), Hgeo.
      symmetry. apply length_map. }
    apply (numeric_stages sf res g2 cs (common_type vs) Hne Hd2 Hlen Hcells).
    eapply Forall_impl; [| apply common_type_numeric;
                           eapply to_numeric_numeric; exact Hvs].
    intros v Hv. destruct v; simpl in *; congruence.
  - apply score_normalizer_error in E; [| exact Hm].
    destruct E as [-> [_ Hex]]. apply traverse_None in Hex. rewrite Hex.
    reflexivity.
Qed.

(** X16.  For a layer that passes the checks and whose scores are text
    under the object dtype (in a column that is not the column of
    cells), the run is this: the texts of the rows with a score are
    read as numbers, an empty text as [NaN], and the run fails with
    ScoreCoercionError if one cannot be read; the rows are then paired
    with the cells of their points, the numbers are averaged per cell
    and every cell becomes a hexagon, as for numeric scores.  When the
    Writer succeeds the output path holds the hexagons; when the run
    fails before the Writer no file has changed. *)
Theorem text_layer_end_to_end a fs g :
  fs (arg_input_file a) = Some (Dataset g) ->
  has_point g = true ->
  In (arg_score_field a) (columns g) ->
  column_dtype (arg_score_field a) g = Object ->
  arg_score_field a <> h3_column (resolution_of a) ->
  fst (run a fs) =
  match converted_hexagons (arg_score_field a) (resolution_of a) g with
  | Ok hex => if driver_writes (arg_output_file a) hex fs
              then Ok tt else Err WriteError
  | Err e => Err e
  end /\
  (forall hex,
     converted_hexagons (arg_score_field a) (resolution_of a) g = Ok hex ->
     In (ToFile (arg_output_file a) hex) (calls (snd (run a fs))) /\
     (driver_writes (arg_output_file a) hex fs = true ->
      files (snd (run a fs)) (arg_output_file a) = Some (Dataset hex))) /\
  (forall e,
     converted_hexagons (arg_score_field a) (resolution_of a) g = Err e ->
     files (snd (run a fs)) = fs).
Proof.
  intros Hg Hp Hcol Hd Hne. apply mem_In in Hcol.
  pose proof (run_spec a fs) as Hrun. cbv zeta in Hrun.
  rewrite Hg, Hp, Hcol in Hrun. rewrite Hrun. clear Hrun.
  rewrite (object_hexagons _ _ _ Hcol Hd Hne).
  destruct (converted_hexagons _ _ g) as [hex | e] eqn:E.
  - split; [destruct (driver_writes _ hex fs); reflexivity |].
    split; [| discriminate].
    intros hex' H. injection H as <-.
    destruct (driver_writes _ hex fs); cbn [snd calls files].
    + split; [rewrite !in_app_iff; simpl; auto |].
      intros _. unfold write. rewrite String.eqb_refl. reflexivity.
    + split; [rewrite !in_app_iff; simpl; auto | discriminate].
  - split; [reflexivity |]. split; [discriminate |].
    intros e' H. reflexivity.
Qed.

(** ** Tables without geometries, line 71 *)

(** X17.  A run fails with the AttributeError of a frame without
    geometries exactly when the input path holds a table that has
    none: GeoPandas reads such a table as a plain DataFrame, and the
    check for points asks it for its geometries.  The table has then
    been read twice, and no file has changed. *)
Theorem plain_table_exactly a fs :
  (fst (run a fs) = Err AttributeError <->
   exists t, fs (arg_input_file a) = Some (Table t)) /\
  (fst (run a fs) = Err AttributeError ->
   run a fs = (Err AttributeError,
               {| files := fs;
                  calls := [ReadFile (arg_input_file a);
                            ReadFile (arg_input_file a)] |})).
Proof.
  assert (Hiff : fst (run a fs) = Err AttributeError <->
                 exists t, fs (arg_input_file a) = Some (Table t)).
  { pose proof (run_spec a fs) as Hrun. cbv zeta in Hrun.
    split.
    - intros H. destruct (fs (arg_input_file a)) as [[| t | g] |] eqn:E.
      + rewrite Hrun in H. discriminate.
      + exists t. reflexivity.
      + destruct (run_dataset_error a fs g _ E H) as [H0 | [H0 | [H0 | H0]]];
          discriminate.
      + rewrite Hrun in H. discriminate.
    - intros [t E]. rewrite E in Hrun. rewrite Hrun. reflexivity. }
  split; [exact Hiff |].
  intros H. apply Hiff in H. destruct H as [t E].
  pose proof (run_spec a fs) as Hrun. cbv zeta in Hrun.
  rewrite E in Hrun. exact Hrun.
Qed.

End Correctness.

(** * The properties on examples *)

Import Double.

(** The two points of one cell with the scores 2.0 and 4.0 come out as
    one hexagon with the mean 3.0. *)
Example two_points_one_hexagon :
  run (cli None) (only "points.gpkg" (Dataset two_points)) =
  (Ok tt,
   {| files := write "hex.gpkg" one_hexagon
                 (only "points.gpkg" (Dataset two_points));
      calls := [ReadFile "points.gpkg"; ReadFile "points.gpkg";
                ReadFile "points.gpkg"; ReadFile "points.gpkg";
                GeoToH3 10; GroupbyMean; H3ToGeoBoundary;
                ToFile "hex.gpkg" one_hexagon] |}).
Proof.
  reflexivity.
Qed.

(** A score column of times is averaged as well: the run ends well and
    writes the time half-way between the two. *)
Example two_times_one_hexagon :
  fst (run (cli None) (only "points.gpkg" (Dataset two_times))) = Ok tt /\
  files (snd (run (cli None) (only "points.gpkg" (Dataset two_times))))
    "hex.gpkg" =
  Some (Dataset {| dtypes := [("h3_10", Object); ("gvi", Datetime64)];
                   features := [unit_hexagon (Timestamp 1500000000)] |}).
Proof.
  split; reflexivity.
Qed.

(** A score that is the empty text in a column of objects is read as
    [NaN], and the mean of its cell is [NaN]. *)
Example empty_text_one_hexagon :
  fst (run (cli None) (only "points.gpkg" (Dataset empty_text_as_object))) =
  Ok tt /\
  files (snd (run (cli None)
                (only "points.gpkg" (Dataset empty_text_as_object))))
    "hex.gpkg" =
  Some (Dataset {| dtypes := [("h3_10", Object); ("gvi", Numeric)];
                   features := [unit_hexagon (Float nan)] |}).
Proof.
  split; reflexivity.
Qed.

(** A layer in which no point has a score comes out as a layer without
    rows, whose column of cells is a column of floats. *)
Example no_scores_no_hexagon :
  run (cli None)
    (only "points.gpkg"
       (Dataset {| dtypes := [("gvi", Numeric)];
                   features := [point_row (1 # 2) (1 # 3) NA] |})) =
  (Ok tt,
   {| files := write "hex.gpkg"
                 {| dtypes := [("h3_10", Numeric); ("gvi", Numeric)];
                    features := [] |}
                 (only "points.gpkg"
                    (Dataset {| dtypes := [("gvi", Numeric)];
                                features := [point_row (1 # 2) (1 # 3) NA] |}));
      calls := [ReadFile "points.gpkg"; ReadFile "points.gpkg";
                ReadFile "points.gpkg"; ReadFile "points.gpkg";
                GeoToH3 10; GroupbyMean; H3ToGeoBoundary;
                ToFile "hex.gpkg"
                  {| dtypes := [("h3_10", Numeric); ("gvi", Numeric)];
                     features := [] |}] |}).
Proof.
  reflexivity.
Qed.

(** ** C3 *)

(** C3, at a failing input.  Two points whose scores are the texts "2"
    and "4" in a column of pandas' string dtype pass the validation;
    the Score Normalizer hands the frame on as it is, the scores still
    text, and the run fails in the Aggregator. *)
Theorem string_dtype_scores_stay_text :
  has_point text_as_string = true /\
  mem "gvi" (columns text_as_string) = true /\
  score_normalizer "gvi" text_as_string blank = (Ok text_as_string, blank) /\
  map (cell "gvi") (features text_as_string) = [Str "2"; Str "4"] /\
  existsb is_number (map (cell "gvi") (features text_as_string)) = false /\
  fst (run (cli None) (only "points.gpkg" (Dataset text_as_string))) =
  Err AggregationError.
Proof.
  repeat split; reflexivity.
Qed.

(** ** C4 *)

(** C4, at a failing input.  A score that is the text "high" in a
    column of pandas' string dtype is not put through the conversion:
    [pd.to_numeric] is not called and the run fails in the Aggregator,
    not with ScoreCoercionError.  The same text in a column of the
    object dtype fails with ScoreCoercionError, which carries the
    error of [pd.to_numeric]. *)
Theorem string_dtype_words_not_coerced :
  fst (run (cli None) (only "points.gpkg" (Dataset words_as_string))) =
  Err AggregationError /\
  calls (snd (run (cli None) (only "points.gpkg" (Dataset words_as_string)))) =
  [ReadFile "points.gpkg"; ReadFile "points.gpkg"; ReadFile "points.gpkg";
   ReadFile "points.gpkg"; GeoToH3 10; GroupbyMean] /\
  fst (run (cli None) (only "points.gpkg" (Dataset words_as_object))) =
  Err (ScoreCoercionError ToNumericError).
Proof.
  repeat split; reflexivity.
Qed.

(** ** Counterexamples *)


(** C6 as stated fails.  A layer of roads without the score field
    does not fail with MissingScoreField: the check for points comes
    first.  And the name of the geometry column, which is no attribute
    field, passes the check for the score field: the run fails later,
    in the Aggregator. *)
Lemma roads_without_score_field :
  (only "points.gpkg" (Dataset roads_only) (arg_input_file (cli None)) =
   Some (Dataset roads_only) /\
   ~ In (arg_score_field (cli None)) (columns roads_only) /\
   fst (run (cli None) (only "points.gpkg" (Dataset roads_only))) =
   Err NoPointGeometry) /\
  (~ In "geometry" (map fst (dtypes two_points)) /\
   fst (main "points.gpkg" "geometry" "hex.gpkg" 10
          {| files := only "points.gpkg" (Dataset two_points); calls := [] |}) =
   Err AggregationError).
Proof.
  split.
  - split; [reflexivity |]. split; [| reflexivity].
    simpl. intros [H | [H | []]]; discriminate.
  - split; [| reflexivity]. simpl. intros [H | []]; discriminate.
Qed.

(** C7 as stated fails.  When the output path holds a file before a
    run that fails, it holds that file after the run.  And when the
    driver fails after it has created the file, the run fails and the
    output path holds what the driver left. *)
Lemma failed_run_keeps_old_output :
  (fst (run (cli None) (only "hex.gpkg" (Dataset one_hexagon))) =
   Err InputNotFound /\
   files (snd (run (cli None) (only "hex.gpkg" (Dataset one_hexagon))))
     (arg_output_file (cli None)) = Some (Dataset one_hexagon)) /\
  (only "points.gpkg" (Dataset two_points) (arg_output_file (cli None)) = None
   /\
   fst (@run full_disk (cli None) (only "points.gpkg" (Dataset two_points))) =
   Err WriteError /\
   files (snd (@run full_disk (cli None)
                 (only "points.gpkg" (Dataset two_points))))
     (arg_output_file (cli None)) = Some Unparseable).
Proof.
  repeat split; reflexivity.
Qed.

(** C10 as stated fails: a validated input whose scores are text under
    the object dtype goes through the conversion.  Text that is not a
    number fails the run with ScoreCoercionError; text that is a
    number is converted, and the run writes the mean of the numbers. *)
Lemma object_dtype_is_coerced :
  has_point words_as_object = true /\
  mem "gvi" (columns words_as_object) = true /\
  fst (run (cli None) (only "points.gpkg" (Dataset words_as_object))) =
  Err (ScoreCoercionError ToNumericError) /\
  In ToNumeric
    (calls (snd (run (cli None) (only "points.gpkg" (Dataset text_as_object)))))
  /\
  score_normalizer "gvi" text_as_object blank =
  (Ok two_whole_points, logged blank [ToNumeric]) /\
  files (snd (run (cli None) (only "points.gpkg" (Dataset text_as_object))))
    "hex.gpkg" = Some (Dataset one_hexagon).
Proof.
  repeat split; try reflexivity.
  simpl. auto 10.
Qed.

(** ** The theorems at concrete inputs *)



(** C5 on a road next to a point. *)
Lemma no_point_geometry_exactly_witness :
  only "points.gpkg" (Dataset mixed) (arg_input_file (cli None)) =
  Some (Dataset mixed) /\
  ((fst (run (cli None) (only "points.gpkg" (Dataset mixed))) =
    Err NoPointGeometry <->
    ~ In (Some "Point") (geometry_type mixed)) /\
   ((exists f, In f (features mixed) /\ is_point f = true) ->
    fst (run (cli None) (only "points.gpkg" (Dataset mixed))) <>
    Err NoPointGeometry) /\
   (~ In (Some "Point") (geometry_type mixed) ->
    files (snd (run (cli None) (only "points.gpkg" (Dataset mixed)))) =
    only "points.gpkg" (Dataset mixed) /\
    forallb is_read
      (calls (snd (run (cli None) (only "points.gpkg" (Dataset mixed))))) =
    true)).
Proof.
  split.
  - reflexivity.
  - apply (no_point_geometry_exactly (cli None)
             (only "points.gpkg" (Dataset mixed)) mixed).
    reflexivity.
Defined.

(** C6, amended, on a point without the score field. *)
Lemma missing_score_field_after_point_check_witness :
  only "points.gpkg" (Dataset unscored_points) (arg_input_file (cli None)) =
  Some (Dataset unscored_points) /\
  In (Some "Point") (geometry_type unscored_points) /\
  ~ In (arg_score_field (cli None)) (columns unscored_points) /\
  run (cli None) (only "points.gpkg" (Dataset unscored_points)) =
  (Err MissingScoreField,
   {| files := only "points.gpkg" (Dataset unscored_points);
      calls := [ReadFile (arg_input_file (cli None));
                ReadFile (arg_input_file (cli None));
                ReadFile (arg_input_file (cli None))] |}).
Proof.
  assert (Hf : ~ In (arg_score_field (cli None)) (columns unscored_points)).
  { simpl. intros [H | [H | []]]; discriminate. }
  split; [reflexivity |]. split; [simpl; auto |]. split; [exact Hf |].
  apply (missing_score_field_after_point_check (cli None)
           (only "points.gpkg" (Dataset unscored_points)) unscored_points).
  - reflexivity.
  - simpl. auto.
  - exact Hf.
Defined.

(** C8 on two file systems that hold the same points. *)
Lemma run_deterministic_witness :
  only "points.gpkg" (Dataset two_points) (arg_input_file (cli None)) =
  beside "points.gpkg" (Dataset two_points) (arg_input_file (cli None)) /\
  (calls (snd (run (cli None) (only "points.gpkg" (Dataset two_points)))) =
   calls (snd (run (cli None) (beside "points.gpkg" (Dataset two_points)))) /\
   (fst (run (cli None) (only "points.gpkg" (Dataset two_points))) = Ok tt ->
    fst (run (cli None) (beside "points.gpkg" (Dataset two_points))) = Ok tt ->
    files (snd (run (cli None) (only "points.gpkg" (Dataset two_points))))
      (arg_output_file (cli None)) =
    files (snd (run (cli None) (beside "points.gpkg" (Dataset two_points))))
      (arg_output_file (cli None))) /\
   (fst (run (cli None) (only "points.gpkg" (Dataset two_points))) <>
    Err WriteError ->
    fst (run (cli None) (beside "points.gpkg" (Dataset two_points))) <>
    Err WriteError ->
    fst (run (cli None) (only "points.gpkg" (Dataset two_points))) =
    fst (run (cli None) (beside "points.gpkg" (Dataset two_points))))).
Proof.
  split.
  - reflexivity.
  - apply (run_deterministic (cli None)
             (only "points.gpkg" (Dataset two_points))
             (beside "points.gpkg" (Dataset two_points))).
    reflexivity.
Defined.

(** C10, amended, on the two points with their scores as text under
    the object dtype. *)
Lemma coercion_only_for_object_dtype_witness :
  only "points.gpkg" (Dataset text_as_object) (arg_input_file (cli None)) =
  Some (Dataset text_as_object) /\
  has_point text_as_object = true /\
  In (arg_score_field (cli None)) (columns text_as_object) /\
  (column_dtype (arg_score_field (cli None)) text_as_object = Numeric ->
   eq_StringDtype_class (column_dtype (arg_score_field (cli None))
                           text_as_object) = false /\
   (forall w,
      score_normalizer (arg_score_field (cli None)) text_as_object w =
      (Ok {| dtypes := dtypes text_as_object;
             features := scored (arg_score_field (cli None))
                           (features text_as_object) |}, w)) /\
   (forall e,
      fst (run (cli None) (only "points.gpkg" (Dataset text_as_object))) <>
      Err (ScoreCoercionError e)) /\
   ~ In ToNumeric
       (calls (snd (run (cli None)
                      (only "points.gpkg" (Dataset text_as_object)))))) /\
  (column_dtype (arg_score_field (cli None)) text_as_object = Object ->
   eq_StringDtype_class (column_dtype (arg_score_field (cli None))
                           text_as_object) = true /\
   In ToNumeric
     (calls (snd (run (cli None)
                    (only "points.gpkg" (Dataset text_as_object))))) /\
   (forall e,
      fst (run (cli None) (only "points.gpkg" (Dataset text_as_object))) =
      Err (ScoreCoercionError e) <->
      e = ToNumericError /\
      exists f,
        In f (scored (arg_score_field (cli None)) (features text_as_object)) /\
        numeric_value (cell (arg_score_field (cli None)) f) = None) /\
   numeric_value (Str "") = Some (Float nan) /\
   (forall w g2 w',
      score_normalizer (arg_score_field (cli None)) text_as_object w =
      (Ok g2, w') ->
      column_dtype (arg_score_field (cli None)) g2 = Numeric /\
      exists vs,
        traverse numeric_value
          (map (cell (arg_score_field (cli None)))
             (scored (arg_score_field (cli None)) (features text_as_object))) =
        Some vs /\
        map (cell (arg_score_field (cli None))) (features g2) =
        common_type vs)).
Proof.
  split; [reflexivity |]. split; [reflexivity |]. split; [simpl; auto |].
  apply (coercion_only_for_object_dtype (cli None)
           (only "points.gpkg" (Dataset text_as_object)) text_as_object).
  - reflexivity.
  - reflexivity.
  - simpl. auto.
Defined.

(** ** The further properties at concrete inputs *)

(** X6 on the two points with their scores as text. *)
Lemma normalized_scores_are_numeric_witness :
  In "gvi" (columns text_as_object) /\
  (column_dtype "gvi" text_as_object = Object \/
   (column_dtype "gvi" text_as_object = Numeric /\
    Forall (fun f => is_float (cell "gvi" f) = true)
      (features text_as_object))) /\
  score_normalizer "gvi" text_as_object blank =
  (Ok two_whole_points, logged blank [ToNumeric]) /\
  column_dtype "gvi" two_whole_points = Numeric /\
  Forall (fun f => is_numeric (cell "gvi" f) = true)
    (features two_whole_points) /\
  (column_dtype "gvi" text_as_object = Numeric ->
   Forall (fun f => is_number (cell "gvi" f) = true)
     (features two_whole_points)) /\
  map geometry (features two_whole_points) =
  map geometry (scored "gvi" (features text_as_object)) /\
  (forall name, name <> "gvi" ->
     map (cell name) (features two_whole_points) =
     map (cell name) (scored "gvi" (features text_as_object))).
Proof.
  split; [simpl; auto |]. split; [left; reflexivity |].
  split; [reflexivity |].
  apply (normalized_scores_are_numeric "gvi" text_as_object blank
           two_whole_points (logged blank [ToNumeric])).
  - simpl. auto.
  - left. reflexivity.
  - reflexivity.
Defined.

(** X7 on the two points. *)
Lemma cell_assigner_adds_one_column_witness :
  geo_to_h3 10 two_points blank =
  (Ok two_points_in_cells, logged blank [GeoToH3 10]) /\
  exists cs,
    traverse (h3_index 10) (features two_points) = Some cs /\
    Forall (fun f => is_point f = true) (features two_points) /\
    map (cell (h3_column 10)) (features two_points_in_cells) = map Str cs /\
    map geometry (features two_points_in_cells) =
    map geometry (features two_points) /\
    (forall name, name <> h3_column 10 ->
       map (cell name) (features two_points_in_cells) =
       map (cell name) (features two_points)) /\
    In (h3_column 10) (columns two_points_in_cells) /\
    (forall name, In name (columns two_points) ->
                  In name (columns two_points_in_cells)).
Proof.
  split.
  - reflexivity.
  - apply (cell_assigner_adds_one_column 10 two_points blank
             two_points_in_cells (logged blank [GeoToH3 10])).
    reflexivity.
Defined.

(** X8 on a road with a score next to a point. *)
Lemma cell_assign_error_exactly_witness :
  only "points.gpkg" (Dataset mixed) (arg_input_file (cli None)) =
  Some (Dataset mixed) /\
  has_point mixed = true /\
  In (arg_score_field (cli None)) (columns mixed) /\
  (column_dtype (arg_score_field (cli None)) mixed = Object ->
   forall f, In f (scored (arg_score_field (cli None)) (features mixed)) ->
             numeric_value (cell (arg_score_field (cli None)) f) <> None) /\
  (fst (run (cli None) (only "points.gpkg" (Dataset mixed))) =
   Err CellAssignError <->
   exists f, In f (scored (arg_score_field (cli None)) (features mixed)) /\
             h3_index (resolution_of (cli None)) f = None) /\
  ((exists f, In f (scored (arg_score_field (cli None)) (features mixed)) /\
              is_point f = false) ->
   fst (run (cli None) (only "points.gpkg" (Dataset mixed))) =
   Err CellAssignError) /\
  (fst (run (cli None) (only "points.gpkg" (Dataset mixed))) =
   Err CellAssignError ->
   files (snd (run (cli None) (only "points.gpkg" (Dataset mixed)))) =
   only "points.gpkg" (Dataset mixed)).
Proof.
  assert (Hparse :
    column_dtype (arg_score_field (cli None)) mixed = Object ->
    forall f, In f (scored (arg_score_field (cli None)) (features mixed)) ->
              numeric_value (cell (arg_score_field (cli None)) f) <> None).
  { simpl. discriminate. }
  split; [reflexivity |]. split; [reflexivity |]. split; [simpl; auto |].
  split; [exact Hparse |].
  apply (cell_assign_error_exactly (cli None)
           (only "points.gpkg" (Dataset mixed)) mixed).
  - reflexivity.
  - reflexivity.
  - simpl. auto.
  - exact Hparse.
Defined.




(** X14 on the run on the two points. *)
Lemma rerun_same_output_witness :
  run (cli None) points_fs = (Ok tt, after_run) /\
  arg_input_file (cli None) <> arg_output_file (cli None) /\
  (fst (run (cli None) (files after_run)) = Ok tt \/
   fst (run (cli None) (files after_run)) = Err WriteError) /\
  (fst (run (cli None) (files after_run)) = Ok tt ->
   forall p, files (snd (run (cli None) (files after_run))) p =
             files after_run p).
Proof.
  assert (Hne : arg_input_file (cli None) <> arg_output_file (cli None)).
  { simpl. discriminate. }
  split; [reflexivity |]. split; [exact Hne |].
  apply (rerun_same_output (cli None) points_fs after_run);
    [reflexivity | exact Hne].
Defined.

(** X15 on the two points with their scores as text under pandas'
    string dtype. *)
Lemma string_dtype_never_aggregated_witness :
  only "points.gpkg" (Dataset text_as_string) (arg_input_file (cli None)) =
  Some (Dataset text_as_string) /\
  has_point text_as_string = true /\
  In (arg_score_field (cli None)) (columns text_as_string) /\
  column_dtype (arg_score_field (cli None)) text_as_string = StringDtype /\
  arg_score_field (cli None) <> h3_column (resolution_of (cli None)) /\
  scored (arg_score_field (cli None)) (features text_as_string) <> [] /\
  (forall w,
     score_normalizer (arg_score_field (cli None)) text_as_string w =
     (Ok {| dtypes := dtypes text_as_string;
            features := scored (arg_score_field (cli None))
                          (features text_as_string) |}, w)) /\
  ~ In ToNumeric
      (calls (snd (run (cli None)
                     (only "points.gpkg" (Dataset text_as_string))))) /\
  (fst (run (cli None) (only "points.gpkg" (Dataset text_as_string))) =
   Err CellAssignError <->
   exists f,
     In f (scored (arg_score_field (cli None)) (features text_as_string)) /\
     h3_index (resolution_of (cli None)) f = None) /\
  (fst (run (cli None) (only "points.gpkg" (Dataset text_as_string))) =
   Err AggregationError <->
   forall f,
     In f (scored (arg_score_field (cli None)) (features text_as_string)) ->
     h3_index (resolution_of (cli None)) f <> None) /\
  fst (run (cli None) (only "points.gpkg" (Dataset text_as_string))) <> Ok tt /\
  files (snd (run (cli None) (only "points.gpkg" (Dataset text_as_string)))) =
  only "points.gpkg" (Dataset text_as_string).
Proof.
  assert (Hne : arg_score_field (cli None) <> h3_column (resolution_of (cli None))).
  { simpl. discriminate. }
  split; [reflexivity |]. split; [reflexivity |]. split; [simpl; auto |].
  split; [reflexivity |]. split; [exact Hne |].
  split; [simpl; discriminate |].
  apply (string_dtype_never_aggregated (cli None)
           (only "points.gpkg" (Dataset text_as_string)) text_as_string).
  - reflexivity.
  - reflexivity.
  - simpl. auto.
  - reflexivity.
  - exact Hne.
  - simpl. discriminate.
Defined.

(** X16 on the two points with their scores as text under the object
    dtype. *)
Lemma text_layer_end_to_end_witness :
  only "points.gpkg" (Dataset text_as_object) (arg_input_file (cli None)) =
  Some (Dataset text_as_object) /\
  has_point text_as_object = true /\
  In (arg_score_field (cli None)) (columns text_as_object) /\
  column_dtype (arg_score_field (cli None)) text_as_object = Object /\
  arg_score_field (cli None) <> h3_column (resolution_of (cli None)) /\
  converted_hexagons (arg_score_field (cli None)) (resolution_of (cli None))
    text_as_object = Ok one_hexagon /\
  fst (run (cli None) (only "points.gpkg" (Dataset text_as_object))) =
  match converted_hexagons (arg_score_field (cli None))
          (resolution_of (cli None)) text_as_object with
  | Ok hex =>
      if driver_writes (arg_output_file (cli None)) hex
           (only "points.gpkg" (Dataset text_as_object))
      then Ok tt else Err WriteError
  | Err e => Err e
  end /\
  (forall hex,
     converted_hexagons (arg_score_field (cli None)) (resolution_of (cli None))
       text_as_object = Ok hex ->
     In (ToFile (arg_output_file (cli None)) hex)
       (calls (snd (run (cli None)
                      (only "points.gpkg" (Dataset text_as_object))))) /\
     (driver_writes (arg_output_file (cli None)) hex
        (only "points.gpkg" (Dataset text_as_object)) = true ->
      files (snd (run (cli None)
                    (only "points.gpkg" (Dataset text_as_object))))
        (arg_output_file (cli None)) = Some (Dataset hex))) /\
  (forall e,
     converted_hexagons (arg_score_field (cli None)) (resolution_of (cli None))
       text_as_object = Err e ->
     files (snd (run (cli None)
                   (only "points.gpkg" (Dataset text_as_object)))) =
     only "points.gpkg" (Dataset text_as_object)).
Proof.
  assert (Hne : arg_score_field (cli None) <> h3_column (resolution_of (cli None))).
  { simpl. discriminate. }
  split; [reflexivity |]. split; [reflexivity |]. split; [simpl; auto |].
  split; [reflexivity |]. split; [exact Hne |]. split; [reflexivity |].
  apply (text_layer_end_to_end (cli None)
           (only "points.gpkg" (Dataset text_as_object)) text_as_object).
  - reflexivity.
  - reflexivity.
  - simpl. auto.
  - reflexivity.
  - exact Hne.
Defined.
